(** * TTY session manager (tty_mcp_server.py): model and verified properties

    A shallow embedding of [TTYManager] and of the data it manages.  The
    manager's methods are written in a state-and-exception monad whose state
    is the manager object together with the outside world (uuid source, clock,
    shell, host metrics).  As in Python, an exception does not roll back the
    state changes made before it was raised. *)

From Stdlib Require Import List ZArith QArith String Ascii Bool Lia.
From Stdlib Require Import DecimalString.
Import ListNotations.

Local Open Scope list_scope.
Local Open Scope Z_scope.

(* ================================================================= *)
(** ** Python strings *)

(** A Python 3 [str] is a sequence of Unicode code points; [len] counts code
    points, not encoded bytes. *)
Definition codepoint := N.
Definition str := list codepoint.

(** The ASCII literals of the source. *)
Definition py (s : string) : str := map N_of_ascii (list_ascii_of_string s).

Definition str_eq_dec : forall a b : str, {a = b} + {a <> b} :=
  list_eq_dec N.eq_dec.

Definition str_eqb (a b : str) : bool := if str_eq_dec a b then true else false.

(** [len(s)] *)
Definition len {A : Type} (l : list A) : Z := Z.of_nat (List.length l).

(** [s.count(c)] for a single character [c] *)
Definition str_count (c : codepoint) (s : str) : Z :=
  Z.of_nat (count_occ N.eq_dec s c).

Definition newline : codepoint := 10%N.

(** [sep.join(parts)] *)
Fixpoint join (sep : str) (parts : list str) : str :=
  match parts with
  | [] => []
  | [p] => p
  | p :: rest => p ++ sep ++ join sep rest
  end.

(** [s.split(c)] for a single character [c]: the pieces between separators. *)
Fixpoint split_on (c : codepoint) (s : str) : list str :=
  match s with
  | [] => [[]]
  | x :: s' =>
      if N.eq_dec x c then [] :: split_on c s'
      else match split_on c s' with
           | [] => [[x]]
           | piece :: pieces => (x :: piece) :: pieces
           end
  end.

(** [str(n)] for an integer *)
Definition str_of_int (z : Z) : str := py (NilZero.string_of_int (Z.to_int z)).

(** Number of bytes of one code point in UTF-8. *)
Definition utf8_width (c : codepoint) : Z :=
  if (c <? 128)%N then 1
  else if (c <? 2048)%N then 2
  else if (c <? 65536)%N then 3
  else 4.

(** [len(s.encode("utf-8"))] *)
Fixpoint byte_length (s : str) : Z :=
  match s with
  | [] => 0
  | c :: s' => utf8_width c + byte_length s'
  end.

(** Truthiness of a string: [if s:] *)
Definition str_truthy (s : str) : bool :=
  match s with [] => false | _ => true end.

(* ================================================================= *)
(** ** Python dictionaries keyed by strings

    A [dict] keeps its keys in insertion order and holds each key once.
    It is an association list; [dict_wf] says that no key is repeated, and
    every operation preserves it. *)

Section Dict.
Context {V : Type}.

Definition dict := list (str * V).

(** [d.get(k)] *)
Fixpoint dict_get (k : str) (d : dict) : option V :=
  match d with
  | [] => None
  | (k', v) :: d' => if str_eq_dec k k' then Some v else dict_get k d'
  end.

(** [k in d] *)
Definition dict_contains (k : str) (d : dict) : bool :=
  match dict_get k d with Some _ => true | None => false end.

(** [d[k] = v]: an existing key keeps its position. *)
Fixpoint dict_set (k : str) (v : V) (d : dict) : dict :=
  match d with
  | [] => [(k, v)]
  | (k', v') :: d' =>
      if str_eq_dec k k' then (k, v) :: d' else (k', v') :: dict_set k v d'
  end.

(** Mutation of the object stored under [k] through a reference to it. *)
Fixpoint dict_update (k : str) (f : V -> V) (d : dict) : dict :=
  match d with
  | [] => []
  | (k', v) :: d' =>
      if str_eq_dec k k' then (k', f v) :: d' else (k', v) :: dict_update k f d'
  end.

(** [del d[k]] on a dictionary that holds [k]; a well-formed dictionary
    holds it once. *)
Fixpoint dict_del (k : str) (d : dict) : dict :=
  match d with
  | [] => []
  | (k', v) :: d' =>
      if str_eq_dec k k' then dict_del k d' else (k', v) :: dict_del k d'
  end.

(** [list(d.keys())], [list(d.values())] *)
Definition dict_keys (d : dict) : list str := map fst d.
Definition dict_values (d : dict) : list V := map snd d.

Definition dict_wf (d : dict) : Prop := NoDup (dict_keys d).
End Dict.

Arguments dict V : clear implicits.

(* ================================================================= *)
(** ** Values carried by result payloads

    The methods return [Dict[str, Any]]; the values that occur are the JSON
    ones. *)

#[local] Set Warnings "-register-all".

Inductive PyVal : Type :=
| VNone
| VBool (b : bool)
| VInt (z : Z)
| VFloat (q : Q)
| VStr (s : str)
| VList (l : list PyVal)
| VDict (d : list (str * PyVal)).

Definition Payload := dict PyVal.

(** Truthiness, as tested by [if v:] and by a comprehension's filter. *)
Definition truthy (v : PyVal) : bool :=
  match v with
  | VNone => false
  | VBool b => b
  | VInt z => negb (z =? 0)
  | VFloat q => negb (Qeq_bool q 0)
  | VStr s => str_truthy s
  | VList l => match l with [] => false | _ => true end
  | VDict d => match d with [] => false | _ => true end
  end.

(** [r.get(k)]: [None] when the key is missing. *)
Definition payload_get (k : str) (r : Payload) : PyVal :=
  match dict_get k r with Some v => v | None => VNone end.

(** An optional string as a value: [None] or the string. *)
Definition val_of_opt_str (o : option str) : PyVal :=
  match o with None => VNone | Some s => VStr s end.

(* ================================================================= *)
(** ** Exceptions *)

Inductive PyExc : Type :=
| TimeoutExpired (cmd : str)     (* subprocess.TimeoutExpired *)
| TypeError (msg : str)
| KeyError (key : str)
| OtherException (msg : str).    (* any other subclass of Exception *)

(** [str(e)]; for [KeyError] the key is shown between quotes, as [repr]
    does for a key without quotes or escapes. *)
Definition exc_str (e : PyExc) : str :=
  match e with
  | TimeoutExpired cmd =>
      py "Command '" ++ cmd ++ py "' timed out after 30 seconds"
  | TypeError msg => msg
  | KeyError key => py "'" ++ key ++ py "'"
  | OtherException msg => msg
  end.

Inductive Outcome (A : Type) : Type :=
| Return (a : A)
| Raise (e : PyExc).
Arguments Return {A} a.
Arguments Raise {A} e.

(* ================================================================= *)
(** ** Data model *)

Inductive SessionStatus : Type := ACTIVE | TERMINATED.

(** [status.value] *)
Definition status_value (s : SessionStatus) : str :=
  match s with
  | ACTIVE => py "active"
  | TERMINATED => py "terminated"
  end.

(** Timestamps are Python floats; every finite float is a rational, and the
    model keeps them in [Q].  A difference of two readings is exact here,
    where the float subtraction rounds; a difference with the zero default is
    exact in both. *)
Record SessionStats : Type := mkStats {
  lines_written : Z;
  bytes_written : Z;
  commands_executed : Z;
  last_activity : Q;
  created_at : Q
}.

Record TTYSession : Type := mkSession {
  session_id : str;
  status : SessionStatus;
  stats : SessionStats;
  buffer : str;
  description : str
}.

Record TTYManager : Type := mkManager {
  sessions : dict TTYSession
}.

(** [SessionStats(created_at=t)]: the other fields take their defaults. *)
Definition new_stats (t : Q) : SessionStats :=
  mkStats 0 0 0 0%Q t.

(** Attribute assignments. *)
Definition set_status (v : SessionStatus) (s : TTYSession) : TTYSession :=
  mkSession (session_id s) v (stats s) (buffer s) (description s).
Definition set_buffer (v : str) (s : TTYSession) : TTYSession :=
  mkSession (session_id s) (status s) (stats s) v (description s).
Definition set_stats (v : SessionStats) (s : TTYSession) : TTYSession :=
  mkSession (session_id s) (status s) v (buffer s) (description s).

Definition set_lines_written (v : Z) (st : SessionStats) : SessionStats :=
  mkStats v (bytes_written st) (commands_executed st) (last_activity st) (created_at st).
Definition set_bytes_written (v : Z) (st : SessionStats) : SessionStats :=
  mkStats (lines_written st) v (commands_executed st) (last_activity st) (created_at st).
Definition set_commands_executed (v : Z) (st : SessionStats) : SessionStats :=
  mkStats (lines_written st) (bytes_written st) v (last_activity st) (created_at st).
Definition set_last_activity (v : Q) (st : SessionStats) : SessionStats :=
  mkStats (lines_written st) (bytes_written st) (commands_executed st) v (created_at st).

(** [session.stats.f = v] *)
Definition on_stats (f : SessionStats -> SessionStats) (s : TTYSession) : TTYSession :=
  set_stats (f (stats s)) s.

(* ================================================================= *)
(** ** The outside world *)

(** A [uuid.UUID] object, given by its canonical text (what [str(u)] returns). *)
Record UUID : Type := mkUUID { uuid_text : str }.

(** What [subprocess.run(command, shell=True, capture_output=True, text=True,
    timeout=30)] does: it completes, or it raises. *)
Inductive RunOutcome : Type :=
| Completed (returncode : Z) (stdout stderr : str)
| RunRaises (e : PyExc).

(** What [psutil] reports when its calls answer; the two percentages as
    Python prints them. *)
Record HostMetrics : Type := mkHost {
  loadavg : Q * Q * Q;
  memory_percent : str;
  disk_percent : str
}.

(** Every call to the outside reads the answer scheduled for the current tick
    and advances the tick, so that successive calls may answer differently. *)
Record World : Type := mkWorld {
  tick : nat;
  uuid4_at : nat -> UUID;
  time_at : nat -> Q;
  ctime_at : nat -> str;
  run_at : nat -> str -> RunOutcome;
  psutil_at : nat -> Outcome HostMetrics
}.

Definition advance (w : World) : World :=
  mkWorld (S (tick w)) (uuid4_at w) (time_at w) (ctime_at w) (run_at w) (psutil_at w).

(* ================================================================= *)
(** ** The monad of manager methods *)

Definition M (A : Type) : Type :=
  World -> TTYManager -> Outcome A * World * TTYManager.

Definition ret {A} (a : A) : M A := fun w m => (Return a, w, m).

Definition raise {A} (e : PyExc) : M A := fun w m => (Raise e, w, m).

Definition bind {A B} (c : M A) (k : A -> M B) : M B :=
  fun w m =>
    match c w m with
    | (Return a, w', m') => k a w' m'
    | (Raise e, w', m') => (Raise e, w', m')
    end.

(** [try: body except ... as e: handler e] *)
Definition try_except {A} (body : M A) (handler : PyExc -> M A) : M A :=
  fun w m =>
    match body w m with
    | (Return a, w', m') => (Return a, w', m')
    | (Raise e, w', m') => handler e w' m'
    end.

Declare Scope py_scope.
Delimit Scope py_scope with py.
Notation "x <- c ;; k" := (bind c (fun x => k))
  (at level 61, c at next level, right associativity) : py_scope.
Notation "c ;; k" := (bind c (fun _ => k))
  (at level 61, right associativity) : py_scope.
Local Open Scope py_scope.

Definition lift {A} (o : Outcome A) : M A := fun w m => (o, w, m).

(** Calls to the outside. *)
Definition uuid_uuid4 : M UUID :=
  fun w m => (Return (uuid4_at w (tick w)), advance w, m).
Definition time_time : M Q :=
  fun w m => (Return (time_at w (tick w)), advance w, m).
Definition time_ctime : M str :=
  fun w m => (Return (ctime_at w (tick w)), advance w, m).
Definition psutil_read : M HostMetrics :=
  fun w m => (psutil_at w (tick w), advance w, m).
Definition subprocess_run (command : str) : M (Z * str * str) :=
  fun w m =>
    match run_at w (tick w) command with
    | Completed rc out err => (Return (rc, out, err), advance w, m)
    | RunRaises e => (Raise e, advance w, m)
    end.

(** Access to [self.sessions]. *)
Definition get_sessions : M (dict TTYSession) :=
  fun w m => (Return (sessions m), w, m).
Definition put_sessions (d : dict TTYSession) : M unit :=
  fun w m => (Return tt, w, mkManager d).

(** [self.sessions[k]] *)
Definition sessions_getitem (k : str) : M TTYSession :=
  d <- get_sessions ;;
  match dict_get k d with
  | Some s => ret s
  | None => raise (KeyError k)
  end.

(** [self.sessions[k] = s] *)
Definition sessions_setitem (k : str) (s : TTYSession) : M unit :=
  d <- get_sessions ;; put_sessions (dict_set k s d).

(** [del self.sessions[k]] *)
Definition sessions_delitem (k : str) : M unit :=
  d <- get_sessions ;;
  if dict_contains k d then put_sessions (dict_del k d)
  else raise (KeyError k).

(** An attribute assignment through the reference [session] obtained from
    [self.sessions[k]]: the object changed is the one the store holds. *)
Definition session_assign (k : str) (f : TTYSession -> TTYSession) : M unit :=
  d <- get_sessions ;; put_sessions (dict_update k f d).

(** Monadic iteration: a [for] loop with an accumulator, and a list
    comprehension. *)
Fixpoint for_each {A B} (l : list A) (acc : B) (body : B -> A -> M B) : M B :=
  match l with
  | [] => ret acc
  | x :: l' => acc' <- body acc x ;; for_each l' acc' body
  end.

Fixpoint comprehension {A B} (f : A -> M B) (l : list A) : M (list B) :=
  match l with
  | [] => ret []
  | x :: l' => y <- f x ;; ys <- comprehension f l' ;; ret (y :: ys)
  end.

(* ================================================================= *)
(** ** Dynamic operations on values *)

(** The operand of a slice [o[:n]]: a string, or a UUID object. *)
Inductive Sliceable : Type :=
| OfStr (s : str)
| OfUUID (u : UUID).

(** [o[:n]]: [uuid.UUID] defines no [__getitem__]. *)
Definition slice_to (n : nat) (o : Sliceable) : Outcome str :=
  match o with
  | OfStr s => Return (firstn n s)
  | OfUUID _ => Raise (TypeError (py "'UUID' object is not subscriptable"))
  end.

Definition type_name (v : PyVal) : str :=
  match v with
  | VNone => py "NoneType"
  | VBool _ => py "bool"
  | VInt _ => py "int"
  | VFloat _ => py "float"
  | VStr _ => py "str"
  | VList _ => py "list"
  | VDict _ => py "dict"
  end.

(** [v[k]] for a string key [k] *)
Definition val_getitem (k : str) (v : PyVal) : Outcome PyVal :=
  match v with
  | VDict d =>
      match dict_get k d with
      | Some x => Return x
      | None => Raise (KeyError k)
      end
  | VStr _ => Raise (TypeError (py "string indices must be integers, not 'str'"))
  | VList _ => Raise (TypeError (py "list indices must be integers or slices, not str"))
  | _ => Raise (TypeError (py "'" ++ type_name v ++ py "' object is not subscriptable"))
  end.

(** [r[k]] on a payload *)
Definition payload_getitem (k : str) (r : Payload) : Outcome PyVal :=
  val_getitem k (VDict r).

(** [a + b] on numbers *)
Definition py_add (a b : PyVal) : Outcome PyVal :=
  let num v :=
    match v with
    | VInt z => Some (inl z)
    | VBool c => Some (inl (if c then 1 else 0))
    | VFloat q => Some (inr q)
    | _ => None
    end in
  match num a, num b with
  | Some (inl x), Some (inl y) => Return (VInt (x + y))
  | Some (inl x), Some (inr y) => Return (VFloat (inject_Z x + y)%Q)
  | Some (inr x), Some (inl y) => Return (VFloat (x + inject_Z y)%Q)
  | Some (inr x), Some (inr y) => Return (VFloat (x + y)%Q)
  | _, _ =>
      Raise (TypeError (py "unsupported operand type(s) for +: '" ++ type_name a
                          ++ py "' and '" ++ type_name b ++ py "'"))
  end.

(** [sum(xs)], starting from the integer 0 *)
Fixpoint py_sum_from (acc : PyVal) (xs : list PyVal) : Outcome PyVal :=
  match xs with
  | [] => Return acc
  | x :: xs' =>
      match py_add acc x with
      | Return acc' => py_sum_from acc' xs'
      | Raise e => Raise e
      end
  end.
Definition py_sum (xs : list PyVal) : Outcome PyVal := py_sum_from (VInt 0) xs.

(** A value used where the callee is annotated [str]; the payloads of
    [create_session] always hold a string there. *)
Definition expect_str (v : PyVal) : Outcome str :=
  match v with
  | VStr s => Return s
  | _ => Raise (TypeError (py "expected str, got " ++ type_name v))
  end.

(* ================================================================= *)
(** ** TTYManager

    The calls to [logger.info] write to the log only and are left out. *)

(** [TTYManager()] *)
Definition TTYManager_init : TTYManager := mkManager [].

(** [TTYSession(session_id=..., description=...)]; [__post_init__] stamps the
    creation time. *)
Definition TTYSession_new (sid descr : str) : M TTYSession :=
  t <- time_time ;;
  ret (mkSession sid ACTIVE (new_stats t) [] descr).

Definition not_found (sid : str) : str :=
  py "Session " ++ sid ++ py " not found".

(** [description or default] *)
Definition str_or (a b : str) : str := if str_truthy a then a else b.

Definition create_session (descr : str) : M Payload :=
  try_except
    (u <- uuid_uuid4 ;;
     sid <- lift (slice_to 8 (OfStr (uuid_text u))) ;;
     session <- TTYSession_new sid (str_or descr (py "Session-" ++ sid)) ;;
     sessions_setitem sid session ;;
     ret [ (py "success", VBool true);
           (py "session_id", VStr sid);
           (py "description", VStr descr);
           (py "message", VStr (py "TTY session created successfully")) ])
    (fun e =>
       ret [ (py "success", VBool false); (py "error", VStr (exc_str e)) ]).

(** The text stored in the buffer after a command has run. *)
Definition format_output (command : str) (rc : Z) (ts out err : str) : str :=
  let output_lines :=
    [ py "Command: " ++ command;
      py "Return code: " ++ str_of_int rc;
      py "Timestamp: " ++ ts ] in
  let output_lines :=
    if str_truthy out then output_lines ++ [py "STDOUT:" ++ [newline] ++ out]
    else output_lines in
  let output_lines :=
    if str_truthy err then output_lines ++ [py "STDERR:" ++ [newline] ++ err]
    else output_lines in
  join [newline] output_lines.

Definition execute_command (sid command : str) : M Payload :=
  d <- get_sessions ;;
  if negb (dict_contains sid d) then
    ret [ (py "success", VBool false); (py "error", VStr (not_found sid)) ]
  else
    _session <- sessions_getitem sid ;;
    try_except
      (result <- subprocess_run command ;;
       let '(rc, out, err) := result in
       session_assign sid
         (on_stats (fun st => set_commands_executed (commands_executed st + 1) st)) ;;
       now <- time_time ;;
       session_assign sid (on_stats (set_last_activity now)) ;;
       ts <- time_ctime ;;
       let output := format_output command rc ts out err in
       session_assign sid (set_buffer output) ;;
       session_assign sid (on_stats (set_bytes_written (len output))) ;;
       session_assign sid
         (on_stats (set_lines_written (str_count newline output + 1))) ;;
       ret [ (py "success", VBool true);
             (py "session_id", VStr sid);
             (py "command", VStr command);
             (py "output", VStr output);
             (py "return_code", VInt rc) ])
      (fun e =>
         match e with
         | TimeoutExpired _ =>
             ret [ (py "success", VBool false);
                   (py "error", VStr (py "Command timeout")) ]
         | _ =>
             ret [ (py "success", VBool false); (py "error", VStr (exc_str e)) ]
         end).

Definition get_session_stats (sid : str) : M Payload :=
  d <- get_sessions ;;
  if negb (dict_contains sid d) then
    ret [ (py "error", VStr (not_found sid)) ]
  else
    session <- sessions_getitem sid ;;
    let st := stats session in
    t1 <- time_time ;;
    t2 <- time_time ;;
    ret [ (py "session_id", VStr sid);
          (py "description", VStr (description session));
          (py "status", VStr (status_value (status session)));
          (py "stats", VDict
             [ (py "lines_written", VInt (lines_written st));
               (py "bytes_written", VInt (bytes_written st));
               (py "commands_executed", VInt (commands_executed st));
               (py "uptime_seconds", VFloat (t1 - created_at st)%Q);
               (py "last_activity_seconds", VFloat (t2 - last_activity st)%Q) ]) ].

Definition get_session (sid : str) : M Payload := get_session_stats sid.

Definition list_sessions : M (list Payload) :=
  d <- get_sessions ;;
  comprehension get_session_stats (dict_keys d).

Definition terminate_session (sid : str) : M Payload :=
  d <- get_sessions ;;
  if negb (dict_contains sid d) then
    ret [ (py "success", VBool false); (py "error", VStr (not_found sid)) ]
  else
    _session <- sessions_getitem sid ;;
    session_assign sid (set_status TERMINATED) ;;
    sessions_delitem sid ;;
    ret [ (py "success", VBool true); (py "session_id", VStr sid) ].

(** [len([r for r in results.values() if r.get("success")])] *)
Definition count_success (results : dict Payload) : Z :=
  len (filter (fun r => truthy (payload_get (py "success") r)) (dict_values results)).

(** A dictionary of payloads as a value. *)
Definition details_value (results : dict Payload) : PyVal :=
  VDict (map (fun kv => (fst kv, VDict (snd kv))) results).

Definition batch_terminate (session_ids : option (list str)) : M Payload :=
  ids <- match session_ids with
         | None => d <- get_sessions ;; ret (dict_keys d)
         | Some l => ret l
         end ;;
  results <- for_each ids ([] : dict Payload)
               (fun results sid =>
                  r <- terminate_session sid ;; ret (dict_set sid r results)) ;;
  ret [ (py "success", VBool true);
        (py "terminated_count", VInt (count_success results));
        (py "details", details_value results) ].

(** [sum(s["stats"][field] for s in sessions)] *)
Definition sum_field (field : str) (ss : list Payload) : M PyVal :=
  xs <- comprehension
          (fun s =>
             st <- lift (payload_getitem (py "stats") s) ;;
             lift (val_getitem field st))
          ss ;;
  lift (py_sum xs).

Definition get_summary_stats : M Payload :=
  ss <- list_sessions ;;
  total_commands <- sum_field (py "commands_executed") ss ;;
  total_bytes <- sum_field (py "bytes_written") ss ;;
  total_lines <- sum_field (py "lines_written") ss ;;
  ret [ (py "total_sessions", VInt (len ss));
        (py "active_sessions", VInt (len ss));
        (py "total_commands", total_commands);
        (py "total_bytes", total_bytes);
        (py "total_lines", total_lines);
        (py "session_details", VList (map VDict ss)) ].

Definition read_all_sessions : M (dict Payload) :=
  d <- get_sessions ;;
  for_each d ([] : dict Payload)
    (fun results item =>
       let '(sid, session) := item in
       ret (dict_set sid
              [ (py "description", VStr (description session));
                (py "content", VStr (buffer session));
                (py "lines", VInt (lines_written (stats session)));
                (py "bytes", VInt (bytes_written (stats session))) ]
              results)).

(** The three [psutil] readings are taken together; the reading raises when
    one of the three calls does, and nothing here catches it. *)
Definition health_check : M Payload :=
  ss <- list_sessions ;;
  now <- time_time ;;
  h <- psutil_read ;;
  let '(l1, l5, l15) := loadavg h in
  ret [ (py "status", VStr (py "healthy"));
        (py "timestamp", VFloat now);
        (py "active_sessions", VInt (len ss));
        (py "system_load", VList [VFloat l1; VFloat l5; VFloat l15]);
        (py "memory_usage", VStr (memory_percent h ++ py "%"));
        (py "disk_usage", VStr (disk_percent h ++ py "%")) ].

(** [if url:] for an optional string *)
Definition opt_truthy (url : option str) : bool :=
  match url with None => false | Some s => str_truthy s end.

(** How an f-string renders an optional string. *)
Definition opt_format (url : option str) : str :=
  match url with None => py "None" | Some s => s end.

Definition create_browser_session (url : option str) : M Payload :=
  try_except
    (u <- uuid_uuid4 ;;
     short <- lift (slice_to 8 (OfUUID u)) ;;
     result <- create_session (py "Browser-" ++ short) ;;
     ok <- lift (payload_getitem (py "success") result) ;;
     if negb (truthy ok) then ret result
     else
       v <- lift (payload_getitem (py "session_id") result) ;;
       sid <- lift (expect_str v) ;;
       (if opt_truthy url
        then _r <- execute_command sid (py "lynx " ++ opt_format url) ;; ret tt
        else ret tt) ;;
       ret [ (py "success", VBool true);
             (py "session_id", VStr sid);
             (py "type", VStr (py "browser"));
             (py "url", val_of_opt_str url);
             (py "message",
               VStr (if opt_truthy url
                     then py "Browser session created for " ++ opt_format url
                     else py "Browser session created")) ])
    (fun e =>
       ret [ (py "success", VBool false);
             (py "error",
               VStr (py "Failed to create browser session: " ++ exc_str e)) ]).

(* ================================================================= *)
(** ** Sequences of manager operations *)

Inductive Op : Type :=
| OpCreateSession (descr : str)
| OpExecuteCommand (sid command : str)
| OpGetSessionStats (sid : str)
| OpGetSession (sid : str)
| OpListSessions
| OpTerminateSession (sid : str)
| OpBatchTerminate (session_ids : option (list str))
| OpGetSummaryStats
| OpReadAllSessions
| OpHealthCheck
| OpCreateBrowserSession (url : option str).

Definition run_op (op : Op) : M PyVal :=
  match op with
  | OpCreateSession descr => r <- create_session descr ;; ret (VDict r)
  | OpExecuteCommand sid command => r <- execute_command sid command ;; ret (VDict r)
  | OpGetSessionStats sid => r <- get_session_stats sid ;; ret (VDict r)
  | OpGetSession sid => r <- get_session sid ;; ret (VDict r)
  | OpListSessions => rs <- list_sessions ;; ret (VList (map VDict rs))
  | OpTerminateSession sid => r <- terminate_session sid ;; ret (VDict r)
  | OpBatchTerminate ids => r <- batch_terminate ids ;; ret (VDict r)
  | OpGetSummaryStats => r <- get_summary_stats ;; ret (VDict r)
  | OpReadAllSessions => r <- read_all_sessions ;; ret (details_value r)
  | OpHealthCheck => r <- health_check ;; ret (VDict r)
  | OpCreateBrowserSession url => r <- create_browser_session url ;; ret (VDict r)
  end.

(** The manager after an operation, whatever its outcome. *)
Definition mgr_after {A} (c : M A) (w : World) (m : TTYManager) : TTYManager :=
  snd (c w m).
Definition world_after {A} (c : M A) (w : World) (m : TTYManager) : World :=
  snd (fst (c w m)).
Definition outcome_of {A} (c : M A) (w : World) (m : TTYManager) : Outcome A :=
  fst (fst (c w m)).

(** The states the module-level [tty_manager] can be in: it starts empty and
    changes only through its methods, each run in an arbitrary world. *)
Inductive reachable : TTYManager -> Prop :=
| reach_init : reachable TTYManager_init
| reach_step m op w : reachable m -> reachable (mgr_after (run_op op) w m).

(** Every stored record is ACTIVE. *)
Definition all_active (m : TTYManager) : Prop :=
  forall sid s, dict_get sid (sessions m) = Some s -> status s = ACTIVE.

(* ================================================================= *)
(** ** Concrete worlds and inputs used in the examples *)

(** The n-th identifier drawn starts with the eight digits of 10000000 + n. *)
Definition demo_uuid (n : nat) : UUID :=
  mkUUID (str_of_int (10000000 + Z.of_nat n) ++ py "-bbfd-4b2d-9b5d-ab8dfbbd4bed").

Definition demo_host : HostMetrics :=
  mkHost ((1 # 2)%Q, (1 # 4)%Q, (1 # 8)%Q) (py "41.5") (py "63.0").

(** A world whose shell answers [run] to every command, with a clock that
    starts at 1700000000 and advances by one second per call. *)
Definition demo_world (run : str -> RunOutcome) : World :=
  mkWorld 0 demo_uuid
    (fun n => inject_Z (1700000000 + Z.of_nat n))
    (fun _ => py "Tue Nov 14 22:13:20 2023")
    (fun _ => run)
    (fun _ => Return demo_host).

Definition echo_hi (_ : str) : RunOutcome := Completed 0 (py "hi" ++ [newline]) [].
Definition times_out (cmd : str) : RunOutcome := RunRaises (TimeoutExpired cmd).
Definition cannot_fork (_ : str) : RunOutcome :=
  RunRaises (OtherException (py "[Errno 12] Cannot allocate memory")).

(** A manager holding one or two fresh sessions. *)
Definition one_session : TTYManager :=
  mgr_after (create_session []) (demo_world echo_hi) TTYManager_init.
Definition two_sessions : TTYManager :=
  mgr_after (create_session (py "build")) (advance (advance (demo_world echo_hi)))
    one_session.

(** A shell that prints an accented letter: the output of [echo é]. *)
Definition e_acute : codepoint := 233%N.
Definition echo_accent (_ : str) : RunOutcome := Completed 0 [e_acute; newline] [].

(* ================================================================= *)
(** ** Vocabulary of the statements *)

(** The payload shapes the methods build. *)
Definition failure (msg : str) : Payload :=
  [ (py "success", VBool false); (py "error", VStr msg) ].
Definition error_only (msg : str) : Payload :=
  [ (py "error", VStr msg) ].
Definition terminated (sid : str) : Payload :=
  [ (py "success", VBool true); (py "session_id", VStr sid) ].

(** The result of one [terminate_session sid] on a store [d]. *)
Definition terminate_result (sid : str) (d : dict TTYSession) : Payload :=
  if dict_contains sid d then terminated sid else failure (not_found sid).

(** The identifier [create_session] draws in world [w]. *)
Definition next_id (w : World) : str := firstn 8 (uuid_text (uuid4_at w (tick w))).

(** The record [execute_command] leaves behind when the command completes. *)
Definition executed (s : TTYSession) (now : Q) (output : str) : TTYSession :=
  mkSession (session_id s) (status s)
    (mkStats (str_count newline output + 1) (len output)
       (commands_executed (stats s) + 1) now (created_at (stats s)))
    output (description s).

(** All characters are ASCII. *)
Definition is_ascii (s : str) : Prop := Forall (fun c => (c < 128)%N) s.

(** The entry [field] of the nested ["stats"] dictionary of a payload. *)
Definition stats_field (field : str) (p : Payload) : PyVal :=
  match payload_get (py "stats") p with
  | VDict st => payload_get field st
  | _ => VNone
  end.


(** The NotFound payload of the error taxonomy: [success] false and the
    message. *)
Definition is_not_found (sid : str) (p : Payload) : Prop :=
  dict_get (py "success") p = Some (VBool false)
  /\ dict_get (py "error") p = Some (VStr (not_found sid)).

(** The session fields a command execution writes. *)
Definition same_record (s s' : TTYSession) : Prop :=
  commands_executed (stats s') = commands_executed (stats s)
  /\ last_activity (stats s') = last_activity (stats s)
  /\ buffer s' = buffer s
  /\ bytes_written (stats s') = bytes_written (stats s)
  /\ lines_written (stats s') = lines_written (stats s).

(** The body of the loop of [batch_terminate]. *)
Definition batch_body (results : dict Payload) (sid : str) : M (dict Payload) :=
  r <- terminate_session sid ;; ret (dict_set sid r results).

(** What that loop leaves: the per-id results, and the store. *)
Fixpoint loop_results (ids : list str) (results : dict Payload)
    (d : dict TTYSession) : dict Payload :=
  match ids with
  | [] => results
  | sid :: ids' =>
      loop_results ids' (dict_set sid (terminate_result sid d) results)
        (dict_del sid d)
  end.

Fixpoint del_all (ids : list str) (d : dict TTYSession) : dict TTYSession :=
  match ids with
  | [] => d
  | sid :: ids' => del_all ids' (dict_del sid d)
  end.


(** A method that leaves the manager as it found it, whatever it returns. *)
Definition read_only {A} (c : M A) : Prop := forall w m, snd (c w m) = m.

(** A method that keeps a property of the manager. *)
Definition preserves {A} (P : TTYManager -> Prop) (c : M A) : Prop :=
  forall w m, P m -> P (snd (c w m)).

(** The snapshot [get_session_stats] builds for a stored session, with the
    two clock readings it takes. *)
Definition stats_payload (sid : str) (s : TTYSession) (t1 t2 : Q) : Payload :=
  [ (py "session_id", VStr sid);
    (py "description", VStr (description s));
    (py "status", VStr (status_value (status s)));
    (py "stats", VDict
       [ (py "lines_written", VInt (lines_written (stats s)));
         (py "bytes_written", VInt (bytes_written (stats s)));
         (py "commands_executed", VInt (commands_executed (stats s)));
         (py "uptime_seconds", VFloat (t1 - created_at (stats s))%Q);
         (py "last_activity_seconds", VFloat (t2 - last_activity (stats s))%Q) ]) ].

(** A payload is the snapshot of the store entry [kv] at some clock readings. *)
Definition snapshot_of (kv : str * TTYSession) (p : Payload) : Prop :=
  exists t1 t2, p = stats_payload (fst kv) (snd kv) t1 t2.

(** The entry [read_all_sessions] builds for a stored session. *)
Definition content_payload (s : TTYSession) : Payload :=
  [ (py "description", VStr (description s));
    (py "content", VStr (buffer s));
    (py "lines", VInt (lines_written (stats s)));
    (py "bytes", VInt (bytes_written (stats s))) ].

(** Sum of a list of integers. *)
Definition sum_Z (l : list Z) : Z := fold_right Z.add 0 l.

(** The sum of a counter over the stored sessions. *)
Definition total (f : SessionStats -> Z) (d : dict TTYSession) : Z :=
  sum_Z (map (fun s => f (stats s)) (dict_values d)).

(** A block of the formatted output: nothing for an empty stream, otherwise
    a line with its name followed by the stream. *)
Definition output_block (name s : str) : str :=
  if str_truthy s then [newline] ++ name ++ [newline] ++ s else [].

(** The record [create_session] stores. *)
Definition fresh_session (sid : str) (t : Q) (descr : str) : TTYSession :=
  mkSession sid ACTIVE (new_stats t) [] descr.

(** What holds of every record the manager stores under key [k]. *)
Definition consistent (k : str) (s : TTYSession) : Prop :=
  session_id s = k
  /\ bytes_written (stats s) = len (buffer s)
  /\ 0 <= commands_executed (stats s)
  /\ (commands_executed (stats s) = 0 ->
      buffer s = [] /\ lines_written (stats s) = 0 /\ last_activity (stats s) = 0%Q)
  /\ (0 < commands_executed (stats s) ->
      lines_written (stats s) = str_count newline (buffer s) + 1).

(** A world in which every identifier drawn is the same. *)
Definition colliding_world : World :=
  mkWorld 0 (fun _ => demo_uuid 0)
    (fun n => inject_Z (1700000000 + Z.of_nat n))
    (fun _ => py "Tue Nov 14 22:13:20 2023")
    (fun _ => echo_hi)
    (fun _ => Return demo_host).

(** A world in which [psutil] is not usable. *)
Definition no_psutil_world : World :=
  mkWorld 0 demo_uuid
    (fun n => inject_Z (1700000000 + Z.of_nat n))
    (fun _ => py "Tue Nov 14 22:13:20 2023")
    (fun _ => echo_hi)
    (fun _ => Raise (OtherException (py "getloadavg() is not supported"))).

(** A manager whose only session has run one command. *)
Definition used_session : TTYManager :=
  mgr_after (execute_command (py "10000000") (py "echo hi"))
    (demo_world echo_hi) one_session.




(* ================================================================= *)
(** * Properties *)

(** ** Dictionaries *)

Section DictFacts.
Context {V : Type}.
Implicit Types (d : dict V) (k : str) (v : V).

Lemma dict_contains_true k d :
  dict_contains k d = true <-> exists v, dict_get k d = Some v.
Proof.
  unfold dict_contains. destruct (dict_get k d) as [v|].
  - split; [eauto | reflexivity].
  - split; [discriminate | intros [v H]; discriminate].
Qed.

Lemma dict_contains_false k d :
  dict_contains k d = false <-> dict_get k d = None.
Proof.
  unfold dict_contains. destruct (dict_get k d); split; congruence.
Qed.

Lemma dict_get_in_keys k d :
  dict_get k d <> None <-> In k (dict_keys d).
Proof.
  induction d as [|[k' v'] d IH]; simpl.
  - split; [congruence | tauto].
  - destruct (str_eq_dec k k') as [->|Hne].
    + split; [auto | congruence].
    + rewrite IH. split; [auto | intros [E|H]; congruence].
Qed.

Lemma dict_contains_in_keys k d :
  dict_contains k d = true <-> In k (dict_keys d).
Proof.
  rewrite <- dict_get_in_keys. unfold dict_contains.
  destruct (dict_get k d); split; congruence.
Qed.

Lemma dict_get_set_eq k v d : dict_get k (dict_set k v d) = Some v.
Proof.
  induction d as [|[k' v'] d IH]; simpl.
  - destruct (str_eq_dec k k); congruence.
  - destruct (str_eq_dec k k') as [->|Hne]; simpl.
    + destruct (str_eq_dec k' k'); congruence.
    + destruct (str_eq_dec k k'); congruence.
Qed.

Lemma dict_get_set_neq k k' v d :
  k <> k' -> dict_get k (dict_set k' v d) = dict_get k d.
Proof.
  intros Hne. induction d as [|[k0 v0] d IH]; simpl.
  - destruct (str_eq_dec k k'); congruence.
  - destruct (str_eq_dec k' k0) as [->|Hne0]; simpl.
    + destruct (str_eq_dec k k0); congruence.
    + destruct (str_eq_dec k k0); congruence.
Qed.

Lemma dict_set_absent k v d :
  dict_get k d = None -> dict_set k v d = d ++ [(k, v)].
Proof.
  induction d as [|[k' v'] d IH]; simpl; [reflexivity|].
  destruct (str_eq_dec k k'); [discriminate|].
  intros H. rewrite IH by assumption. reflexivity.
Qed.

Lemma dict_keys_set k v d :
  dict_keys (dict_set k v d)
  = if dict_contains k d then dict_keys d else dict_keys d ++ [k].
Proof.
  unfold dict_contains.
  induction d as [|[k' v'] d IH]; simpl; [reflexivity|].
  destruct (str_eq_dec k k') as [->|Hne]; simpl; [reflexivity|].
  rewrite IH. destruct (dict_get k d); reflexivity.
Qed.

Lemma dict_get_update_eq k f d :
  dict_get k (dict_update k f d) = option_map f (dict_get k d).
Proof.
  induction d as [|[k' v'] d IH]; simpl; [reflexivity|].
  destruct (str_eq_dec k k') as [->|Hne]; simpl.
  - destruct (str_eq_dec k' k'); congruence.
  - destruct (str_eq_dec k k'); congruence.
Qed.

Lemma dict_get_update_neq k k' f d :
  k <> k' -> dict_get k (dict_update k' f d) = dict_get k d.
Proof.
  intros Hne. induction d as [|[k0 v0] d IH]; simpl; [reflexivity|].
  destruct (str_eq_dec k' k0) as [->|Hne0]; simpl.
  - destruct (str_eq_dec k k0); congruence.
  - destruct (str_eq_dec k k0); congruence.
Qed.

Lemma dict_update_update k f g d :
  dict_update k f (dict_update k g d) = dict_update k (fun v => f (g v)) d.
Proof.
  induction d as [|[k' v'] d IH]; simpl; [reflexivity|].
  destruct (str_eq_dec k k') as [->|Hne]; simpl.
  - destruct (str_eq_dec k' k'); congruence.
  - destruct (str_eq_dec k k'); congruence.
Qed.

Lemma dict_keys_update k f d : dict_keys (dict_update k f d) = dict_keys d.
Proof.
  induction d as [|[k' v'] d IH]; simpl; [reflexivity|].
  destruct (str_eq_dec k k'); simpl; congruence.
Qed.

Lemma dict_contains_update k k' f d :
  dict_contains k (dict_update k' f d) = dict_contains k d.
Proof.
  unfold dict_contains. destruct (str_eq_dec k k') as [->|Hne].
  - rewrite dict_get_update_eq. destruct (dict_get k' d); reflexivity.
  - rewrite dict_get_update_neq by assumption. reflexivity.
Qed.

Lemma dict_del_update k f d : dict_del k (dict_update k f d) = dict_del k d.
Proof.
  induction d as [|[k' v'] d IH]; simpl; [reflexivity|].
  destruct (str_eq_dec k k') as [->|Hne]; simpl.
  - destruct (str_eq_dec k' k'); congruence.
  - destruct (str_eq_dec k k'); congruence.
Qed.

Lemma dict_get_del_eq k d : dict_get k (dict_del k d) = None.
Proof.
  induction d as [|[k' v'] d IH]; simpl; [reflexivity|].
  destruct (str_eq_dec k k') as [->|Hne]; simpl; [assumption|].
  destruct (str_eq_dec k k'); congruence.
Qed.

Lemma dict_get_del_neq k k' d :
  k <> k' -> dict_get k (dict_del k' d) = dict_get k d.
Proof.
  intros Hne. induction d as [|[k0 v0] d IH]; simpl; [reflexivity|].
  destruct (str_eq_dec k' k0) as [->|Hne0]; simpl.
  - destruct (str_eq_dec k k0); congruence.
  - destruct (str_eq_dec k k0); congruence.
Qed.

Lemma dict_contains_del_eq k d : dict_contains k (dict_del k d) = false.
Proof. apply dict_contains_false, dict_get_del_eq. Qed.

Lemma dict_contains_del_neq k k' d :
  k <> k' -> dict_contains k (dict_del k' d) = dict_contains k d.
Proof.
  intros Hne. unfold dict_contains.
  rewrite dict_get_del_neq by assumption. reflexivity.
Qed.

Lemma dict_del_absent k d : dict_get k d = None -> dict_del k d = d.
Proof.
  induction d as [|[k' v'] d IH]; simpl; [reflexivity|].
  destruct (str_eq_dec k k'); [discriminate|].
  intros H. rewrite IH by assumption. reflexivity.
Qed.

Lemma in_keys_del k k' d :
  In k (dict_keys (dict_del k' d)) <-> k <> k' /\ In k (dict_keys d).
Proof.
  rewrite <- !dict_contains_in_keys. destruct (str_eq_dec k k') as [->|Hne].
  - rewrite dict_contains_del_eq. split; [discriminate | tauto].
  - rewrite dict_contains_del_neq by assumption. tauto.
Qed.

Lemma dict_wf_set k v d : dict_wf d -> dict_wf (dict_set k v d).
Proof.
  unfold dict_wf. intros H. rewrite dict_keys_set.
  destruct (dict_contains k d) eqn:E; [assumption|].
  apply NoDup_app; [assumption | repeat constructor; simpl; tauto |].
  intros x Hx [<-|[]]. apply dict_contains_in_keys in Hx. congruence.
Qed.

Lemma dict_wf_update k f d : dict_wf d -> dict_wf (dict_update k f d).
Proof. unfold dict_wf. now rewrite dict_keys_update. Qed.

Lemma dict_wf_del k d : dict_wf d -> dict_wf (dict_del k d).
Proof.
  unfold dict_wf. induction d as [|[k' v'] d IH]; simpl; [auto|].
  intros H. inversion H as [|? ? Hnin Hnd]; subst.
  destruct (str_eq_dec k k'); [auto|]. simpl. constructor; [|auto].
  intros Hin. apply in_keys_del in Hin. tauto.
Qed.
End DictFacts.

(* ================================================================= *)
(** ** What each method computes *)

#[local] Arguments py : simpl never.

(** Unfolds the monad's plumbing and leaves the tests of the method. *)
Ltac run_method :=
  cbv [bind ret raise lift try_except get_sessions put_sessions
       sessions_getitem sessions_setitem sessions_delitem session_assign
       uuid_uuid4 time_time time_ctime psutil_read];
  simpl.

Lemma manager_eta m : mkManager (sessions m) = m.
Proof. destruct m; reflexivity. Qed.

Lemma create_session_run descr w m :
  create_session descr w m
  = (Return [ (py "success", VBool true);
              (py "session_id", VStr (next_id w));
              (py "description", VStr descr);
              (py "message", VStr (py "TTY session created successfully")) ],
     advance (advance w),
     mkManager
       (dict_set (next_id w)
          (mkSession (next_id w) ACTIVE (new_stats (time_at w (S (tick w)))) []
             (str_or descr (py "Session-" ++ next_id w)))
          (sessions m))).
Proof. reflexivity. Qed.

Lemma terminate_session_run sid w m :
  terminate_session sid w m
  = (Return (terminate_result sid (sessions m)), w,
     mkManager (dict_del sid (sessions m))).
Proof.
  unfold terminate_session, terminate_result. run_method.
  destruct (dict_contains sid (sessions m)) eqn:E; simpl.
  - apply dict_contains_true in E as E'. destruct E' as [s Hs]. rewrite Hs.
    rewrite dict_contains_update, E, dict_del_update. reflexivity.
  - apply dict_contains_false in E. rewrite dict_del_absent, manager_eta by assumption.
    reflexivity.
Qed.

Lemma get_session_stats_missing sid w m :
  dict_contains sid (sessions m) = false ->
  get_session_stats sid w m = (Return (error_only (not_found sid)), w, m).
Proof.
  intros E. unfold get_session_stats. run_method. rewrite E. reflexivity.
Qed.

Lemma get_session_stats_present sid s w m :
  dict_get sid (sessions m) = Some s ->
  get_session_stats sid w m
  = (Return
       [ (py "session_id", VStr sid);
         (py "description", VStr (description s));
         (py "status", VStr (status_value (status s)));
         (py "stats", VDict
            [ (py "lines_written", VInt (lines_written (stats s)));
              (py "bytes_written", VInt (bytes_written (stats s)));
              (py "commands_executed", VInt (commands_executed (stats s)));
              (py "uptime_seconds",
                VFloat (time_at w (tick w) - created_at (stats s))%Q);
              (py "last_activity_seconds",
                VFloat (time_at w (S (tick w)) - last_activity (stats s))%Q) ]) ],
     advance (advance w), m).
Proof.
  intros Hs. unfold get_session_stats. run_method.
  unfold dict_contains. rewrite Hs. simpl. rewrite Hs. reflexivity.
Qed.

Lemma execute_command_missing sid command w m :
  dict_contains sid (sessions m) = false ->
  execute_command sid command w m = (Return (failure (not_found sid)), w, m).
Proof.
  intros E. unfold execute_command. run_method. rewrite E. reflexivity.
Qed.

Lemma execute_command_raises sid command s e w m :
  dict_get sid (sessions m) = Some s ->
  run_at w (tick w) command = RunRaises e ->
  execute_command sid command w m
  = (Return (failure (match e with
                      | TimeoutExpired _ => py "Command timeout"
                      | _ => exc_str e
                      end)),
     advance w, m).
Proof.
  intros Hs Hrun. unfold execute_command, subprocess_run. run_method.
  unfold dict_contains. rewrite Hs. simpl. rewrite Hs, Hrun.
  destruct e; reflexivity.
Qed.

Lemma execute_command_completes sid command s rc out err w m :
  dict_get sid (sessions m) = Some s ->
  run_at w (tick w) command = Completed rc out err ->
  let output := format_output command rc (ctime_at w (S (S (tick w)))) out err in
  execute_command sid command w m
  = (Return [ (py "success", VBool true);
              (py "session_id", VStr sid);
              (py "command", VStr command);
              (py "output", VStr output);
              (py "return_code", VInt rc) ],
     advance (advance (advance w)),
     mkManager
       (dict_update sid (fun s => executed s (time_at w (S (tick w))) output)
          (sessions m))).
Proof.
  intros Hs Hrun output. unfold execute_command, subprocess_run. run_method.
  unfold dict_contains. rewrite Hs. simpl. rewrite Hs, Hrun. simpl.
  rewrite !dict_update_update. reflexivity.
Qed.

(* ================================================================= *)
(** ** Creating sessions *)

(** C8.  [create_session] with an empty (or omitted) description stores a
    record whose description is "Session-" followed by the id, and returns the
    id; the payload's description is the empty argument, not the default. *)
Theorem C8_create_session_payload_description w m :
  let sid := next_id w in
  (exists s, dict_get sid (sessions (mgr_after (create_session []) w m)) = Some s
             /\ session_id s = sid
             /\ description s = py "Session-" ++ sid)
  /\ (exists p, outcome_of (create_session []) w m = Return p
                /\ dict_get (py "success") p = Some (VBool true)
                /\ dict_get (py "session_id") p = Some (VStr sid)
                /\ dict_get (py "description") p = Some (VStr [])
                /\ dict_get (py "description") p
                   <> Some (VStr (py "Session-" ++ sid))).
Proof.
  intros sid. unfold mgr_after, outcome_of. rewrite create_session_run. simpl.
  split.
  - eexists. split; [apply dict_get_set_eq|]. split; reflexivity.
  - eexists. split; [reflexivity|]. repeat split; try reflexivity.
    discriminate.
Qed.

(** C1.  [create_browser_session] slices the UUID object itself; the
    TypeError is caught, so every call, with or without a url, reports
    [success] false and leaves the store as it was: no session is created. *)
Theorem C1_create_browser_session_fails url w m :
  create_browser_session url w m
  = (Return (failure (py "Failed to create browser session: "
                        ++ py "'UUID' object is not subscriptable")),
     advance w, m).
Proof. reflexivity. Qed.



(* ================================================================= *)
(** ** Executing commands *)

(** A payload with [success] false means the store is as it was. *)
Lemma execute_command_failure_unchanged sid command w m p :
  outcome_of (execute_command sid command) w m = Return p ->
  truthy (payload_get (py "success") p) = false ->
  mgr_after (execute_command sid command) w m = m.
Proof.
  unfold outcome_of, mgr_after.
  destruct (dict_get sid (sessions m)) as [s|] eqn:Hs.
  - destruct (run_at w (tick w) command) as [rc out err|e] eqn:Hrun.
    + rewrite (execute_command_completes _ _ _ _ _ _ _ _ Hs Hrun). simpl.
      intros [= <-]. discriminate.
    + rewrite (execute_command_raises _ _ _ _ _ _ Hs Hrun). reflexivity.
  - rewrite execute_command_missing by (apply dict_contains_false; assumption).
    reflexivity.
Qed.

(** C2.  When the runner times out or fails, [execute_command] returns the
    failure payload and the manager is unchanged; the session's
    commands_executed, last_activity, buffer, bytes_written and lines_written
    are what they were. *)
Theorem C2_failed_execution_leaves_session_unchanged sid command s e w m :
  dict_get sid (sessions m) = Some s ->
  run_at w (tick w) command = RunRaises e ->
  outcome_of (execute_command sid command) w m
  = Return (failure (match e with
                     | TimeoutExpired _ => py "Command timeout"
                     | _ => exc_str e
                     end))
  /\ mgr_after (execute_command sid command) w m = m
  /\ exists s',
       dict_get sid (sessions (mgr_after (execute_command sid command) w m)) = Some s'
       /\ same_record s s'.
Proof.
  intros Hs Hrun. unfold outcome_of, mgr_after.
  rewrite (execute_command_raises _ _ _ _ _ _ Hs Hrun). simpl.
  repeat split. exists s. repeat split. assumption.
Qed.

Lemma C2_witness :
  exists s',
    dict_get (py "10000000")
      (sessions (mgr_after (execute_command (py "10000000") (py "sleep 60"))
                   (demo_world times_out) one_session)) = Some s'
    /\ commands_executed (stats s') = 0.
Proof.
  destruct (C2_failed_execution_leaves_session_unchanged
              (py "10000000") (py "sleep 60")
              (mkSession (py "10000000") ACTIVE
                 (new_stats (inject_Z 1700000001)) [] (py "Session-10000000"))
              (TimeoutExpired (py "sleep 60"))
              (demo_world times_out) one_session)
    as (_ & _ & s' & Hget & Hsame).
  - vm_compute. reflexivity.
  - reflexivity.
  - exists s'. split; [exact Hget|]. destruct Hsame as (Hc & _). exact Hc.
Defined.

Lemma str_count_split c s : str_count c s + 1 = len (split_on c s).
Proof.
  unfold str_count, len.
  assert (H : S (count_occ N.eq_dec s c) = List.length (split_on c s)).
  { induction s as [|x s IH]; simpl; [reflexivity|].
    destruct (N.eq_dec x c) as [->|Hne]; simpl.
    - rewrite IH. reflexivity.
    - rewrite IH. destruct (split_on c s); [discriminate | reflexivity]. }
  lia.
Qed.

Lemma byte_length_ascii s : is_ascii s -> byte_length s = len s.
Proof.
  unfold len. induction 1 as [|c s Hc Hs IH]; simpl byte_length; [reflexivity|].
  rewrite IH. unfold utf8_width.
  apply N.ltb_lt in Hc. rewrite Hc. simpl List.length. lia.
Qed.

Lemma byte_length_ge_len s : len s <= byte_length s.
Proof.
  unfold len. induction s as [|c s IH]; simpl byte_length; simpl List.length; [lia|].
  assert (1 <= utf8_width c).
  { unfold utf8_width.
    destruct (c <? 128)%N, (c <? 2048)%N, (c <? 65536)%N; lia. }
  lia.
Qed.

(** After a command that completes, the counters are recomputed from the new
    buffer: [bytes_written] is its number of characters, [lines_written] the
    number of its newline-separated pieces; [commands_executed] has grown by
    one.  This holds for the first command as for any later one. *)
Lemma execute_command_stats_follow_buffer sid command s rc out err w m :
  dict_get sid (sessions m) = Some s ->
  run_at w (tick w) command = Completed rc out err ->
  exists s',
    dict_get sid (sessions (mgr_after (execute_command sid command) w m)) = Some s'
    /\ buffer s' = format_output command rc (ctime_at w (S (S (tick w)))) out err
    /\ bytes_written (stats s') = len (buffer s')
    /\ lines_written (stats s') = len (split_on newline (buffer s'))
    /\ commands_executed (stats s') = commands_executed (stats s) + 1
    /\ (is_ascii (buffer s') -> bytes_written (stats s') = byte_length (buffer s')).
Proof.
  intros Hs Hrun. unfold mgr_after.
  rewrite (execute_command_completes _ _ _ _ _ _ _ _ Hs Hrun). simpl.
  rewrite dict_get_update_eq, Hs. simpl.
  eexists. split; [reflexivity|]. simpl.
  repeat split; try reflexivity.
  - apply str_count_split.
  - intros Ha. symmetry. apply byte_length_ascii. exact Ha.
Qed.

(** C3.  On the first command of a fresh session, here one whose text holds
    an accented letter, [lines_written] is the line count of the buffer and
    [bytes_written] is its length in characters (77), which is not its length
    in bytes (79): each "é" is one character and two bytes. *)
Theorem C3_bytes_written_counts_characters :
  exists s',
    dict_get (py "10000000")
      (sessions (mgr_after (execute_command (py "10000000") (py "echo " ++ [e_acute]))
                   (demo_world echo_accent) one_session)) = Some s'
    /\ commands_executed (stats s') = 1
    /\ lines_written (stats s') = len (split_on newline (buffer s'))
    /\ bytes_written (stats s') = len (buffer s')
    /\ bytes_written (stats s') = 77
    /\ byte_length (buffer s') = 79
    /\ bytes_written (stats s') <> byte_length (buffer s').
Proof.
  eexists. split; [vm_compute; reflexivity|].
  repeat split; try (vm_compute; reflexivity).
  vm_compute. discriminate.
Qed.

(* ================================================================= *)
(** ** Unknown session ids *)

(** C4, as the code has it.  For an id that is not in the store, none of the
    four methods raises and none changes the store; [execute_command] and
    [terminate_session] return [success] false with the message
    "Session <id> not found", while [get_session_stats] and [get_session]
    return the message alone, without a [success] entry. *)
Theorem C4_missing_session_payloads sid command w m :
  dict_contains sid (sessions m) = false ->
  execute_command sid command w m = (Return (failure (not_found sid)), w, m)
  /\ terminate_session sid w m = (Return (failure (not_found sid)), w, m)
  /\ get_session_stats sid w m = (Return (error_only (not_found sid)), w, m)
  /\ get_session sid w m = (Return (error_only (not_found sid)), w, m)
  /\ is_not_found sid (failure (not_found sid))
  /\ dict_get (py "error") (error_only (not_found sid)) = Some (VStr (not_found sid))
  /\ dict_get (py "success") (error_only (not_found sid)) = None.
Proof.
  intros E. split; [apply execute_command_missing; exact E|].
  split.
  { rewrite terminate_session_run. unfold terminate_result. rewrite E.
    apply dict_contains_false in E. rewrite dict_del_absent, manager_eta by exact E.
    reflexivity. }
  split; [apply get_session_stats_missing; exact E|].
  split; [apply get_session_stats_missing; exact E|].
  repeat split.
Qed.

Lemma C4_witness :
  get_session_stats (py "zzz") (demo_world echo_hi) one_session
  = (Return (error_only (py "Session zzz not found")), demo_world echo_hi, one_session).
Proof.
  refine (proj1 (proj2 (proj2
    (C4_missing_session_payloads (py "zzz") [] (demo_world echo_hi) one_session _)))).
  vm_compute. reflexivity.
Defined.

(** C4, as stated, fails for [get_session_stats]: on the unknown id "zzz" the
    payload is not the NotFound payload, it has no [success] entry. *)
Lemma C4_counterexample :
  exists p,
    outcome_of (get_session_stats (py "zzz")) (demo_world echo_hi) TTYManager_init
    = Return p
    /\ ~ is_not_found (py "zzz") p.
Proof.
  eexists. split; [vm_compute; reflexivity|].
  intros [H _]. vm_compute in H. discriminate H.
Qed.

(* ================================================================= *)
(** ** Terminating sessions *)

(** C5.  Terminating a stored session succeeds and removes that record and
    no other; afterwards looking the id up, or terminating it again, reports
    that the session is not found. *)
Theorem C5_terminate_then_not_found sid w m :
  dict_contains sid (sessions m) = true ->
  let m1 := mgr_after (terminate_session sid) w m in
  outcome_of (terminate_session sid) w m = Return (terminated sid)
  /\ dict_contains sid (sessions m1) = false
  /\ (forall k, k <> sid -> dict_get k (sessions m1) = dict_get k (sessions m))
  /\ (forall w2, outcome_of (get_session_stats sid) w2 m1
                 = Return (error_only (not_found sid)))
  /\ (forall w3, outcome_of (terminate_session sid) w3 m1
                 = Return (failure (not_found sid))
                 /\ mgr_after (terminate_session sid) w3 m1 = m1).
Proof.
  intros E m1. subst m1. unfold outcome_of, mgr_after.
  rewrite terminate_session_run. simpl.
  assert (Hgone : dict_contains sid (dict_del sid (sessions m)) = false)
    by apply dict_contains_del_eq.
  split; [unfold terminate_result; rewrite E; reflexivity|].
  split; [exact Hgone|].
  split; [intros k Hk; apply dict_get_del_neq; exact Hk|].
  split.
  - intros w2. rewrite get_session_stats_missing by exact Hgone. reflexivity.
  - intros w3. rewrite terminate_session_run. simpl.
    unfold terminate_result. rewrite Hgone.
    rewrite (dict_del_absent sid (dict_del sid (sessions m)))
      by (apply dict_get_del_eq).
    split; reflexivity.
Qed.

Lemma C5_witness :
  outcome_of (terminate_session (py "10000000")) (demo_world echo_hi) two_sessions
  = Return (terminated (py "10000000")).
Proof.
  refine (proj1 (C5_terminate_then_not_found (py "10000000")
                   (demo_world echo_hi) two_sessions _)).
  vm_compute. reflexivity.
Defined.

(* ================================================================= *)
(** ** Batch termination *)

Lemma batch_loop_run ids : forall results w m,
  for_each ids results batch_body w m
  = (Return (loop_results ids results (sessions m)), w,
     mkManager (del_all ids (sessions m))).
Proof.
  induction ids as [|sid ids IH]; intros results w m; simpl.
  - unfold ret. rewrite manager_eta. reflexivity.
  - unfold bind at 1. unfold batch_body at 1. unfold bind at 1.
    rewrite terminate_session_run. unfold ret at 1. apply IH.
Qed.

Lemma batch_terminate_run session_ids w m :
  let ids := match session_ids with
             | None => dict_keys (sessions m)
             | Some l => l
             end in
  let results := loop_results ids [] (sessions m) in
  batch_terminate session_ids w m
  = (Return [ (py "success", VBool true);
              (py "terminated_count", VInt (count_success results));
              (py "details", details_value results) ],
     w, mkManager (del_all ids (sessions m))).
Proof.
  intros ids results. unfold batch_terminate.
  change (fun (results0 : dict Payload) (sid : str) =>
            r <- terminate_session sid ;; ret (dict_set sid r results0))
    with batch_body.
  unfold bind at 1.
  assert (Hids : (match session_ids with
                  | None => d <- get_sessions ;; ret (dict_keys d)
                  | Some l => ret l
                  end) w m = (Return ids, w, m)).
  { subst ids. destruct session_ids; reflexivity. }
  rewrite Hids. unfold bind at 1. rewrite batch_loop_run. reflexivity.
Qed.

Lemma dict_get_del_all_notin ids : forall d k,
  ~ In k ids -> dict_get k (del_all ids d) = dict_get k d.
Proof.
  induction ids as [|sid ids IH]; intros d k Hk; simpl; [reflexivity|].
  rewrite IH by (intros H; apply Hk; right; exact H).
  apply dict_get_del_neq. intros ->. apply Hk. left. reflexivity.
Qed.

Lemma dict_get_del_all_in ids : forall d k,
  In k ids -> dict_get k (del_all ids d) = None.
Proof.
  induction ids as [|sid ids IH]; intros d k Hk; simpl; [destruct Hk|].
  destruct (in_dec str_eq_dec k ids) as [Hin|Hnin]; [apply IH; exact Hin|].
  destruct Hk as [->|Hin]; [|contradiction].
  rewrite dict_get_del_all_notin by exact Hnin. apply dict_get_del_eq.
Qed.

Lemma dict_all_absent {V} (d : dict V) :
  (forall k, dict_get k d = None) -> d = [].
Proof.
  destruct d as [|[k v] d]; [reflexivity|]. intros H. specialize (H k).
  simpl in H. destruct (str_eq_dec k k); congruence.
Qed.

Lemma del_all_keys d : del_all (dict_keys d) d = [].
Proof.
  apply dict_all_absent. intros k.
  destruct (in_dec str_eq_dec k (dict_keys d)) as [Hin|Hnin].
  - apply dict_get_del_all_in. exact Hin.
  - rewrite dict_get_del_all_notin by exact Hnin.
    destruct (dict_get k d) eqn:E; [|reflexivity].
    exfalso. apply Hnin. apply dict_get_in_keys. congruence.
Qed.

Lemma terminate_result_del sid k d :
  sid <> k -> terminate_result sid (dict_del k d) = terminate_result sid d.
Proof.
  intros Hne. unfold terminate_result.
  rewrite dict_contains_del_neq by exact Hne. reflexivity.
Qed.

(** Without repeated ids, the results list the ids in order, each with the
    outcome it has on the store the batch started from. *)
Lemma loop_results_nodup ids : forall results d,
  NoDup ids ->
  (forall sid, In sid ids -> dict_get sid results = None) ->
  loop_results ids results d
  = results ++ map (fun sid => (sid, terminate_result sid d)) ids.
Proof.
  induction ids as [|sid ids IH]; intros results d Hnd Hfresh; simpl.
  - rewrite app_nil_r. reflexivity.
  - inversion Hnd as [|? ? Hnin Hnd']; subst.
    rewrite IH; [| exact Hnd' |].
    + rewrite dict_set_absent by (apply Hfresh; left; reflexivity).
      rewrite <- app_assoc. simpl. do 2 f_equal.
      apply map_ext_in. intros k Hk. f_equal.
      apply terminate_result_del. intros ->. contradiction.
    + intros k Hk. rewrite dict_get_set_neq by (intros ->; contradiction).
      apply Hfresh. right. exact Hk.
Qed.

Lemma loop_results_wf ids : forall results d,
  dict_wf results -> dict_wf (loop_results ids results d).
Proof.
  induction ids as [|sid ids IH]; intros results d Hwf; simpl; [exact Hwf|].
  apply IH, dict_wf_set, Hwf.
Qed.

Lemma loop_results_keys ids : forall results d k,
  dict_contains k (loop_results ids results d) = true
  <-> In k ids \/ dict_contains k results = true.
Proof.
  induction ids as [|sid ids IH]; intros results d k; simpl; [tauto|].
  rewrite IH. unfold dict_contains at 1.
  destruct (str_eq_dec k sid) as [->|Hne].
  - rewrite dict_get_set_eq. intuition.
  - rewrite dict_get_set_neq by exact Hne. fold (dict_contains k results).
    intuition congruence.
Qed.

(** With or without repeated ids, the entry of an id is the outcome of a
    call to [terminate_session] for it; a success means the id was in the
    store when the batch started. *)
Lemma loop_results_get ids : forall results d k r,
  dict_get k (loop_results ids results d) = Some r ->
  (In k ids /\ (r = terminated k /\ dict_contains k d = true
                \/ r = failure (not_found k)))
  \/ (~ In k ids /\ dict_get k results = Some r).
Proof.
  induction ids as [|sid ids IH]; intros results d k r H; simpl in *.
  - right. split; [tauto | exact H].
  - apply IH in H. destruct H as [[Hin Hr]|[Hnin Hr]].
    + left. split; [right; exact Hin|].
      destruct Hr as [[-> Hc] | ->]; [left|right; reflexivity].
      split; [reflexivity|].
      destruct (str_eq_dec k sid) as [->|Hne].
      * rewrite dict_contains_del_eq in Hc. discriminate.
      * rewrite dict_contains_del_neq in Hc by exact Hne. exact Hc.
    + destruct (str_eq_dec k sid) as [->|Hne].
      * rewrite dict_get_set_eq in Hr. injection Hr as <-.
        left. split; [left; reflexivity|].
        unfold terminate_result. destruct (dict_contains sid d); auto.
      * rewrite dict_get_set_neq in Hr by exact Hne.
        right. split; [|exact Hr]. intros [->|Hin]; [congruence | contradiction].
Qed.



Lemma dict_in_get {V} k (v : V) d : dict_wf d -> In (k, v) d -> dict_get k d = Some v.
Proof.
  unfold dict_wf. induction d as [|[k' v'] d IH]; simpl; [tauto|].
  intros Hwf Hin. inversion Hwf as [|? ? Hnin Hnd]; subst.
  destruct Hin as [Heq|Hin].
  - injection Heq as -> ->. destruct (str_eq_dec k k); congruence.
  - destruct (str_eq_dec k k') as [->|Hne]; [|apply IH; assumption].
    exfalso. apply Hnin. change (In (fst (k', v)) (map fst d)).
    apply in_map. exact Hin.
Qed.


Lemma count_success_outcomes ids d :
  count_success (map (fun sid => (sid, terminate_result sid d)) ids)
  = len (filter (fun sid => dict_contains sid d) ids).
Proof.
  unfold count_success, dict_values, len. f_equal. rewrite map_map. simpl.
  induction ids as [|sid ids IH]; simpl; [reflexivity|].
  unfold terminate_result at 1.
  destruct (dict_contains sid d); simpl; rewrite IH; reflexivity.
Qed.

Lemma filter_all {A} (f : A -> bool) l :
  (forall x, In x l -> f x = true) -> filter f l = l.
Proof.
  induction l as [|x l IH]; simpl; intros H; [reflexivity|].
  rewrite (H x) by (left; reflexivity). f_equal. apply IH.
  intros y Hy. apply H. right. exact Hy.
Qed.

(** C6.  Called without an id list on a store with n sessions,
    [batch_terminate] terminates every one of them: the details hold a
    success for each id of the store, in order, [terminated_count] is n, and
    the store is empty afterwards. *)
Theorem C6_batch_terminate_all w m :
  dict_wf (sessions m) ->
  batch_terminate None w m
  = (Return [ (py "success", VBool true);
              (py "terminated_count", VInt (len (sessions m)));
              (py "details",
                details_value
                  (map (fun sid => (sid, terminated sid)) (dict_keys (sessions m)))) ],
     w, TTYManager_init).
Proof.
  intros Hwf. rewrite batch_terminate_run. simpl.
  rewrite del_all_keys.
  rewrite loop_results_nodup by (exact Hwf || reflexivity). simpl.
  rewrite count_success_outcomes.
  rewrite filter_all by (intros k Hk; apply dict_contains_in_keys; exact Hk).
  assert (Hmap : map (fun sid => (sid, terminate_result sid (sessions m)))
                   (dict_keys (sessions m))
                 = map (fun sid => (sid, terminated sid)) (dict_keys (sessions m))).
  { apply map_ext_in. intros k Hk. unfold terminate_result.
    apply dict_contains_in_keys in Hk. rewrite Hk. reflexivity. }
  rewrite Hmap. unfold len, dict_keys. rewrite length_map. reflexivity.
Qed.

Lemma C6_witness :
  outcome_of (batch_terminate None) (demo_world echo_hi) two_sessions
  = Return [ (py "success", VBool true);
             (py "terminated_count", VInt 2);
             (py "details",
               details_value [ (py "10000000", terminated (py "10000000"));
                               (py "10000002", terminated (py "10000002")) ]) ]
  /\ mgr_after (batch_terminate None) (demo_world echo_hi) two_sessions
     = TTYManager_init.
Proof.
  assert (Hwf : dict_wf (sessions two_sessions)).
  { repeat constructor; simpl; intuition discriminate. }
  unfold outcome_of, mgr_after.
  rewrite (C6_batch_terminate_all (demo_world echo_hi) two_sessions Hwf).
  split; reflexivity.
Defined.

Lemma loop_results_by_multiplicity ids sid : forall results d,
  dict_get sid (loop_results ids results d)
  = match count_occ str_eq_dec ids sid with
    | O => dict_get sid results
    | S O => Some (terminate_result sid d)
    | S (S _) => Some (failure (not_found sid))
    end.
Proof.
  induction ids as [|x ids IH]; intros results d; simpl; [reflexivity|].
  rewrite IH. destruct (str_eq_dec x sid) as [->|Hne].
  - destruct (count_occ str_eq_dec ids sid) as [|[|n]].
    + apply dict_get_set_eq.
    + unfold terminate_result. rewrite dict_contains_del_eq. reflexivity.
    + reflexivity.
  - destruct (count_occ str_eq_dec ids sid) as [|[|n]].
    + apply dict_get_set_neq. congruence.
    + rewrite terminate_result_del by congruence. reflexivity.
    + reflexivity.
Qed.







(** An id given twice is terminated by the first call and not found by the
    second, whose outcome is the one the details keep. *)
Example batch_terminate_repeated_id :
  outcome_of (batch_terminate (Some [py "10000000"; py "10000000"]))
    (demo_world echo_hi) one_session
  = Return [ (py "success", VBool true);
             (py "terminated_count", VInt 0);
             (py "details",
               details_value
                 [ (py "10000000", failure (py "Session 10000000 not found")) ]) ]
  /\ mgr_after (batch_terminate (Some [py "10000000"; py "10000000"]))
       (demo_world echo_hi) one_session
     = TTYManager_init.
Proof. split; vm_compute; reflexivity. Qed.

(* ================================================================= *)
(** ** Methods that only read *)

Lemma read_only_ret {A} (a : A) : read_only (ret a).
Proof. intros w m. reflexivity. Qed.

Lemma read_only_raise {A} e : read_only (@raise A e).
Proof. intros w m. reflexivity. Qed.

Lemma read_only_lift {A} (o : Outcome A) : read_only (lift o).
Proof. intros w m. reflexivity. Qed.

Lemma read_only_get_sessions : read_only get_sessions.
Proof. intros w m. reflexivity. Qed.

Lemma read_only_time_time : read_only time_time.
Proof. intros w m. reflexivity. Qed.

Lemma read_only_psutil_read : read_only psutil_read.
Proof. intros w m. reflexivity. Qed.

Lemma read_only_bind {A B} (c : M A) (k : A -> M B) :
  read_only c -> (forall a, read_only (k a)) -> read_only (bind c k).
Proof.
  intros Hc Hk w m. unfold bind. specialize (Hc w m).
  destruct (c w m) as [[o w'] m']. simpl in Hc. subst m'.
  destruct o; [apply Hk | reflexivity].
Qed.

Lemma read_only_comprehension {A B} (f : A -> M B) l :
  (forall x, read_only (f x)) -> read_only (comprehension f l).
Proof.
  intros Hf. induction l as [|x l IH]; simpl.
  - apply read_only_ret.
  - apply read_only_bind; [apply Hf|]. intros y.
    apply read_only_bind; [exact IH|]. intros ys. apply read_only_ret.
Qed.

Lemma read_only_for_each {A B} (body : B -> A -> M B) l :
  (forall acc x, read_only (body acc x)) ->
  forall acc, read_only (for_each l acc body).
Proof.
  intros Hb. induction l as [|x l IH]; intros acc; simpl.
  - apply read_only_ret.
  - apply read_only_bind; [apply Hb|]. intros acc'. apply IH.
Qed.

Ltac read_only_step :=
  first
    [ apply read_only_ret | apply read_only_raise | apply read_only_lift
    | apply read_only_get_sessions | apply read_only_time_time
    | apply read_only_psutil_read
    | apply read_only_comprehension; intros ?
    | apply read_only_for_each; intros ? ?
    | apply read_only_bind; [|intros ?]
    | match goal with
      | |- read_only (if ?b then _ else _) => destruct b
      | |- read_only (match ?o with _ => _ end) => destruct o
      end ].

Ltac read_only_tac := repeat read_only_step.

Lemma read_only_get_session_stats sid : read_only (get_session_stats sid).
Proof. unfold get_session_stats, sessions_getitem. read_only_tac. Qed.

Lemma read_only_list_sessions : read_only list_sessions.
Proof.
  unfold list_sessions. read_only_tac.
Qed.

Lemma read_only_get_summary_stats : read_only get_summary_stats.
Proof.
  unfold get_summary_stats, sum_field.
  apply read_only_bind; [apply read_only_list_sessions|]. intros ss.
  read_only_tac.
Qed.

Lemma read_only_read_all_sessions : read_only read_all_sessions.
Proof. unfold read_all_sessions. read_only_tac. Qed.

Lemma read_only_health_check : read_only health_check.
Proof.
  unfold health_check.
  apply read_only_bind; [apply read_only_list_sessions|]. intros ss.
  read_only_tac.
Qed.

(* ================================================================= *)
(** ** What an operation can do to the store *)

Lemma mgr_after_bind_ret {A B} (c : M A) (f : A -> B) w m :
  mgr_after (bind c (fun r => ret (f r))) w m = mgr_after c w m.
Proof.
  unfold mgr_after, bind. destruct (c w m) as [[o w'] m'].
  destruct o; reflexivity.
Qed.

(** Every operation leaves the store as it was, or puts a fresh ACTIVE record
    under an id, or rewrites one record by a command execution, or deletes
    some ids. *)
Lemma run_op_store op w m :
  let d' := sessions (mgr_after (run_op op) w m) in
  d' = sessions m
  \/ (exists sid t descr,
        d' = dict_set sid (mkSession sid ACTIVE (new_stats t) [] descr) (sessions m))
  \/ (exists sid now output,
        d' = dict_update sid (fun s => executed s now output) (sessions m))
  \/ (exists ids, d' = del_all ids (sessions m)).
Proof.
  intros d'. subst d'.
  destruct op; unfold run_op; rewrite mgr_after_bind_ret; unfold mgr_after.
  - rewrite create_session_run. simpl. right. left. eauto.
  - destruct (dict_get sid (sessions m)) as [s|] eqn:Hs.
    + destruct (run_at w (tick w) command) as [rc out err|e] eqn:Hrun.
      * rewrite (execute_command_completes _ _ _ _ _ _ _ _ Hs Hrun). simpl.
        right. right. left. eauto.
      * rewrite (execute_command_raises _ _ _ _ _ _ Hs Hrun). left. reflexivity.
    + rewrite execute_command_missing by (apply dict_contains_false; exact Hs).
      left. reflexivity.
  - left. f_equal. apply read_only_get_session_stats.
  - left. f_equal. apply read_only_get_session_stats.
  - left. f_equal. apply read_only_list_sessions.
  - rewrite terminate_session_run. simpl. right. right. right.
    exists [sid]. reflexivity.
  - rewrite batch_terminate_run. simpl. right. right. right. eauto.
  - left. f_equal. apply read_only_get_summary_stats.
  - left. f_equal. apply read_only_read_all_sessions.
  - left. f_equal. apply read_only_health_check.
  - left. reflexivity.
Qed.

Lemma del_all_wf ids : forall d, dict_wf d -> dict_wf (del_all ids d).
Proof.
  induction ids as [|sid ids IH]; intros d Hwf; simpl; [exact Hwf|].
  apply IH, dict_wf_del, Hwf.
Qed.

Lemma dict_get_del_all_some ids d k (s : TTYSession) :
  dict_get k (del_all ids d) = Some s -> dict_get k d = Some s.
Proof.
  destruct (in_dec str_eq_dec k ids) as [Hin|Hnin].
  - rewrite dict_get_del_all_in by exact Hin. discriminate.
  - rewrite dict_get_del_all_notin by exact Hnin. auto.
Qed.

(** The store of the running manager never holds a key twice. *)
Lemma reachable_wf m : reachable m -> dict_wf (sessions m).
Proof.
  induction 1 as [|m op w _ IH]; [constructor|].
  destruct (run_op_store op w m)
    as [E|[(sid & t & descr & E)|[(sid & now & output & E)|(ids & E)]]];
    rewrite E.
  - exact IH.
  - apply dict_wf_set, IH.
  - apply dict_wf_update, IH.
  - apply del_all_wf, IH.
Qed.

(* ================================================================= *)
(** ** Status of stored records *)

(** C9.  In every state the manager can reach by any sequence of its
    operations, each record in the store has status ACTIVE: the only
    assignment of TERMINATED is followed, within [terminate_session], by the
    deletion of that record. *)
Theorem C9_stored_sessions_are_active m :
  reachable m ->
  all_active m
  /\ (forall sid w,
        dict_contains sid (sessions (mgr_after (terminate_session sid) w m)) = false).
Proof.
  intros Hreach. split; cycle 1.
  { intros sid w. unfold mgr_after. rewrite terminate_session_run. simpl.
    apply dict_contains_del_eq. }
  induction Hreach as [|m op w _ IH]; [intros sid s H; discriminate H|].
  intros k s.
  destruct (run_op_store op w m)
    as [E|[(sid & t & descr & E)|[(sid & now & output & E)|(ids & E)]]];
    rewrite E; clear E.
  - apply IH.
  - destruct (str_eq_dec k sid) as [->|Hne].
    + rewrite dict_get_set_eq. intros [= <-]. reflexivity.
    + rewrite dict_get_set_neq by exact Hne. apply IH.
  - destruct (str_eq_dec k sid) as [->|Hne].
    + rewrite dict_get_update_eq.
      destruct (dict_get sid (sessions m)) as [s0|] eqn:Hs; [|discriminate].
      simpl. intros [= <-]. simpl. apply (IH sid s0 Hs).
    + rewrite dict_get_update_neq by exact Hne. apply IH.
  - intros H. apply dict_get_del_all_some in H. apply (IH k s H).
Qed.

Lemma C9_witness : all_active two_sessions.
Proof.
  refine (proj1 (C9_stored_sessions_are_active two_sessions _)).
  exact (reach_step _ (OpCreateSession (py "build"))
           (advance (advance (demo_world echo_hi)))
           (reach_step _ (OpCreateSession []) (demo_world echo_hi) reach_init)).
Defined.

(* ================================================================= *)
(** ** Listing and summarising *)

Lemma comprehension_stats_run ks : forall w m,
  (forall k, In k ks -> dict_contains k (sessions m) = true) ->
  exists l w',
    comprehension get_session_stats ks w m = (Return l, w', m)
    /\ Forall2 (fun k p => exists s t1 t2,
                  dict_get k (sessions m) = Some s
                  /\ p = stats_payload k s t1 t2) ks l.
Proof.
  induction ks as [|k ks IH]; intros w m Hin; simpl.
  - exists [], w. split; [reflexivity | constructor].
  - destruct (proj1 (dict_contains_true k (sessions m)) (Hin k (or_introl eq_refl)))
      as [s Hs].
    destruct (IH (advance (advance w)) m) as (l & w' & Hrun & Hall).
    { intros k' Hk'. apply Hin. right. exact Hk'. }
    exists (stats_payload k s (time_at w (tick w)) (time_at w (S (tick w))) :: l), w'.
    split.
    + unfold bind at 1. rewrite (get_session_stats_present _ _ _ _ Hs).
      unfold bind at 1. rewrite Hrun. reflexivity.
    + constructor; [eauto | exact Hall].
Qed.

Lemma snapshots_of_entries d : forall d0 l,
  dict_wf d -> incl d0 d ->
  Forall2 (fun k p => exists s t1 t2,
             dict_get k d = Some s /\ p = stats_payload k s t1 t2)
    (dict_keys d0) l ->
  Forall2 snapshot_of d0 l.
Proof.
  induction d0 as [|[k s] d0 IH]; intros l Hwf Hincl H; simpl in H.
  - inversion H. constructor.
  - inversion H as [|? p ? l' (s' & t1 & t2 & Hs' & Hp) Hrest]; subst.
    constructor.
    + assert (Hk : dict_get k d = Some s)
        by (apply dict_in_get; [exact Hwf | apply Hincl; left; reflexivity]).
      rewrite Hk in Hs'. injection Hs' as <-. exists t1, t2. reflexivity.
    + apply IH; [exact Hwf | | exact Hrest].
      intros x Hx. apply Hincl. right. exact Hx.
Qed.

Lemma list_sessions_run w m :
  dict_wf (sessions m) ->
  exists l w',
    list_sessions w m = (Return l, w', m) /\ Forall2 snapshot_of (sessions m) l.
Proof.
  intros Hwf.
  destruct (comprehension_stats_run (dict_keys (sessions m)) w m)
    as (l & w' & Hrun & Hall).
  { intros k Hk. apply dict_contains_in_keys. exact Hk. }
  exists l, w'. split.
  - unfold list_sessions, bind, get_sessions. exact Hrun.
  - apply (snapshots_of_entries (sessions m)); [exact Hwf | apply incl_refl | exact Hall].
Qed.

(** X1.  [list_sessions] returns one snapshot per stored session, in the
    order of the store, each the payload [get_session_stats] builds for that
    session; it never returns an error entry and leaves the store as it was. *)
Theorem list_sessions_snapshots w m :
  dict_wf (sessions m) ->
  exists l,
    outcome_of list_sessions w m = Return l
    /\ Forall2 snapshot_of (sessions m) l
    /\ len l = len (sessions m)
    /\ map (payload_get (py "session_id")) l = map VStr (dict_keys (sessions m))
    /\ mgr_after list_sessions w m = m.
Proof.
  intros Hwf. destruct (list_sessions_run w m Hwf) as (l & w' & Hrun & Hall).
  exists l. unfold outcome_of, mgr_after. rewrite Hrun. simpl.
  split; [reflexivity|]. split; [exact Hall|].
  split; [unfold len; f_equal; symmetry; eapply Forall2_length; exact Hall|].
  split; [|reflexivity].
  clear Hrun Hwf. revert Hall. generalize (sessions m). intros d Hall.
  induction Hall as [|[k s] p d l (t1 & t2 & ->) _ IH]; simpl.
  - reflexivity.
  - f_equal. exact IH.
Qed.

Lemma list_sessions_snapshots_witness :
  exists l,
    outcome_of list_sessions (demo_world echo_hi) two_sessions = Return l
    /\ len l = 2.
Proof.
  destruct (list_sessions_snapshots (demo_world echo_hi) two_sessions)
    as (l & Hout & _ & Hlen & _).
  - repeat constructor; simpl; intuition discriminate.
  - exists l. split; [exact Hout | exact Hlen].
Defined.

Lemma py_sum_from_ints zs : forall a,
  py_sum_from (VInt a) (map VInt zs) = Return (VInt (a + sum_Z zs)).
Proof.
  induction zs as [|z zs IH]; intros a; simpl.
  - f_equal. f_equal. lia.
  - rewrite IH. f_equal. f_equal. unfold sum_Z. simpl. lia.
Qed.

(** Summing one counter of the snapshots gives the sum of that counter over
    the sessions. *)
Lemma sum_field_run field (f : SessionStats -> Z) d l w m :
  (forall s t1 t2,
     val_getitem field
       (VDict
          [ (py "lines_written", VInt (lines_written (stats s)));
            (py "bytes_written", VInt (bytes_written (stats s)));
            (py "commands_executed", VInt (commands_executed (stats s)));
            (py "uptime_seconds", VFloat (t1 - created_at (stats s))%Q);
            (py "last_activity_seconds", VFloat (t2 - last_activity (stats s))%Q) ])
     = Return (VInt (f (stats s)))) ->
  Forall2 snapshot_of d l ->
  sum_field field l w m = (Return (VInt (total f d)), w, m).
Proof.
  intros Hfield Hall. unfold sum_field, total.
  assert (Hxs : comprehension
                  (fun s => st <- lift (payload_getitem (py "stats") s) ;;
                            lift (val_getitem field st)) l w m
                = (Return (map VInt (map (fun s => f (stats s)) (dict_values d))), w, m)).
  { induction Hall as [|[k s] p d l (t1 & t2 & ->) _ IH]; simpl; [reflexivity|].
    unfold bind at 1. unfold bind at 1.
    change (lift (payload_getitem (py "stats") (stats_payload k s t1 t2)) w m)
      with (Return (VDict
          [ (py "lines_written", VInt (lines_written (stats s)));
            (py "bytes_written", VInt (bytes_written (stats s)));
            (py "commands_executed", VInt (commands_executed (stats s)));
            (py "uptime_seconds", VFloat (t1 - created_at (stats s))%Q);
            (py "last_activity_seconds", VFloat (t2 - last_activity (stats s))%Q) ]),
            w, m).
    cbv beta iota. unfold lift at 1.
    rewrite (Hfield s t1 t2).
    unfold bind at 1. rewrite IH. reflexivity. }
  unfold bind at 1. rewrite Hxs. unfold lift, py_sum.
  rewrite py_sum_from_ints. reflexivity.
Qed.

(** X2.  [get_summary_stats] never fails: it reports the number of stored
    sessions twice (total and active), the sums of [commands_executed],
    [bytes_written] and [lines_written] over them, and their snapshots; the
    store is unchanged. *)
Theorem get_summary_stats_totals w m :
  dict_wf (sessions m) ->
  exists l,
    outcome_of get_summary_stats w m
    = Return [ (py "total_sessions", VInt (len (sessions m)));
               (py "active_sessions", VInt (len (sessions m)));
               (py "total_commands", VInt (total commands_executed (sessions m)));
               (py "total_bytes", VInt (total bytes_written (sessions m)));
               (py "total_lines", VInt (total lines_written (sessions m)));
               (py "session_details", VList (map VDict l)) ]
    /\ Forall2 snapshot_of (sessions m) l
    /\ mgr_after get_summary_stats w m = m.
Proof.
  intros Hwf. destruct (list_sessions_run w m Hwf) as (l & w' & Hrun & Hall).
  assert (Hlen : len l = len (sessions m)).
  { unfold len. f_equal. symmetry. eapply Forall2_length. exact Hall. }
  exists l. split; [|split; [exact Hall | apply read_only_get_summary_stats]].
  unfold outcome_of, get_summary_stats.
  unfold bind at 1. rewrite Hrun.
  unfold bind at 1.
  rewrite (sum_field_run _ commands_executed (sessions m)) by (reflexivity || exact Hall).
  unfold bind at 1.
  rewrite (sum_field_run _ bytes_written (sessions m)) by (reflexivity || exact Hall).
  unfold bind at 1.
  rewrite (sum_field_run _ lines_written (sessions m)) by (reflexivity || exact Hall).
  unfold ret. simpl. rewrite Hlen. reflexivity.
Qed.

Lemma get_summary_stats_totals_witness :
  exists l,
    outcome_of get_summary_stats (demo_world echo_hi) used_session
    = Return [ (py "total_sessions", VInt 1);
               (py "active_sessions", VInt 1);
               (py "total_commands", VInt 1);
               (py "total_bytes", VInt 79);
               (py "total_lines", VInt 6);
               (py "session_details", VList (map VDict l)) ].
Proof.
  destruct (get_summary_stats_totals (demo_world echo_hi) used_session)
    as (l & Hout & _).
  - repeat constructor; simpl; intuition discriminate.
  - exists l. rewrite Hout. vm_compute. reflexivity.
Defined.

Lemma read_all_loop d : forall results w m,
  dict_wf d ->
  (forall k, In k (dict_keys d) -> dict_get k results = None) ->
  for_each d results
    (fun (results : dict Payload) (item : str * TTYSession) =>
       let '(sid, session) := item in
       ret (dict_set sid
              [ (py "description", VStr (description session));
                (py "content", VStr (buffer session));
                (py "lines", VInt (lines_written (stats session)));
                (py "bytes", VInt (bytes_written (stats session))) ]
              results)) w m
  = (Return (results ++ map (fun kv => (fst kv, content_payload (snd kv))) d), w, m).
Proof.
  induction d as [|[k s] d IH]; intros results w m Hwf Hfresh; simpl.
  - rewrite app_nil_r. reflexivity.
  - inversion Hwf as [|? ? Hnin Hnd]; subst.
    unfold bind at 1. unfold ret at 1.
    rewrite IH; [| exact Hnd |].
    + rewrite dict_set_absent by (apply Hfresh; left; reflexivity).
      rewrite <- app_assoc. reflexivity.
    + intros k' Hk'. rewrite dict_get_set_neq by (intros ->; contradiction).
      apply Hfresh. right. exact Hk'.
Qed.

(** X3.  [read_all_sessions] returns, for every stored session and in the
    order of the store, its description, its buffer and the line and byte
    counters; the store is unchanged. *)
Theorem read_all_sessions_contents w m :
  dict_wf (sessions m) ->
  read_all_sessions w m
  = (Return (map (fun kv => (fst kv, content_payload (snd kv))) (sessions m)), w, m).
Proof.
  intros Hwf. unfold read_all_sessions. unfold bind at 1, get_sessions.
  rewrite read_all_loop by (exact Hwf || reflexivity). reflexivity.
Qed.

Lemma read_all_sessions_contents_witness :
  outcome_of read_all_sessions (demo_world echo_hi) two_sessions
  = Return [ (py "10000000",
               [ (py "description", VStr (py "Session-10000000"));
                 (py "content", VStr []);
                 (py "lines", VInt 0);
                 (py "bytes", VInt 0) ]);
             (py "10000002",
               [ (py "description", VStr (py "build"));
                 (py "content", VStr []);
                 (py "lines", VInt 0);
                 (py "bytes", VInt 0) ]) ].
Proof.
  unfold outcome_of.
  rewrite (read_all_sessions_contents (demo_world echo_hi) two_sessions).
  - vm_compute. reflexivity.
  - repeat constructor; simpl; intuition discriminate.
Defined.

Lemma tick_iter_advance n w : tick (Nat.iter n advance w) = (n + tick w)%nat.
Proof. induction n as [|n IH]; simpl; [reflexivity | rewrite IH; reflexivity]. Qed.

Lemma time_at_iter_advance n w : time_at (Nat.iter n advance w) = time_at w.
Proof. induction n as [|n IH]; simpl; [reflexivity | exact IH]. Qed.

Lemma psutil_at_iter_advance n w : psutil_at (Nat.iter n advance w) = psutil_at w.
Proof. induction n as [|n IH]; simpl; [reflexivity | exact IH]. Qed.

(** Each snapshot reads the clock twice. *)
Lemma comprehension_stats_world ks : forall w m,
  (forall k, In k ks -> dict_contains k (sessions m) = true) ->
  world_after (comprehension get_session_stats ks) w m
  = Nat.iter (2 * List.length ks) advance w.
Proof.
  unfold world_after.
  induction ks as [|k ks IH]; intros w m Hin; [reflexivity|].
  destruct (proj1 (dict_contains_true k (sessions m)) (Hin k (or_introl eq_refl)))
    as [s Hs].
  assert (Hrest : forall k', In k' ks -> dict_contains k' (sessions m) = true)
    by (intros k' Hk'; apply Hin; right; exact Hk').
  specialize (IH (advance (advance w)) m Hrest).
  destruct (comprehension_stats_run ks (advance (advance w)) m Hrest)
    as (l & w' & Hrun & _).
  rewrite Hrun in IH. simpl in IH.
  cbn [comprehension]. unfold bind at 1.
  rewrite (get_session_stats_present _ _ _ _ Hs).
  unfold bind at 1. rewrite Hrun. cbn [ret fst snd]. rewrite IH.
  replace (2 * List.length (k :: ks))%nat with (S (S (2 * List.length ks)))
    by (simpl; lia).
  rewrite !Nat.iter_succ_r. reflexivity.
Qed.

(** X4.  [health_check] lists the sessions, reads the clock and then reads
    [psutil].  When [psutil] answers, the payload has the status "healthy",
    that clock reading as timestamp and the number of stored sessions as
    [active_sessions]; when [psutil] raises, so does [health_check].  The
    store is unchanged either way. *)
Theorem health_check_counts_sessions w m :
  dict_wf (sessions m) ->
  let n := (2 * List.length (sessions m) + tick w)%nat in
  (forall h,
     psutil_at w (S n) = Return h ->
     exists p,
       outcome_of health_check w m = Return p
       /\ dict_get (py "status") p = Some (VStr (py "healthy"))
       /\ dict_get (py "timestamp") p = Some (VFloat (time_at w n))
       /\ dict_get (py "active_sessions") p = Some (VInt (len (sessions m))))
  /\ (forall e,
        psutil_at w (S n) = Raise e -> outcome_of health_check w m = Raise e)
  /\ mgr_after health_check w m = m.
Proof.
  intros Hwf n. destruct (list_sessions_run w m Hwf) as (l & w' & Hrun & Hall).
  assert (Hlen : len l = len (sessions m)).
  { unfold len. f_equal. symmetry. eapply Forall2_length. exact Hall. }
  assert (Hw' : w' = Nat.iter (2 * List.length (sessions m)) advance w).
  { pose proof (comprehension_stats_world (dict_keys (sessions m)) w m) as Hw.
    unfold world_after in Hw.
    change (comprehension get_session_stats (dict_keys (sessions m)) w m)
      with (list_sessions w m) in Hw.
    rewrite Hrun in Hw. simpl in Hw. unfold dict_keys in Hw.
    rewrite length_map in Hw. apply Hw.
    intros k Hk. apply dict_contains_in_keys. exact Hk. }
  assert (Htick : tick w' = n) by (rewrite Hw'; apply tick_iter_advance).
  assert (Htime : time_at w' = time_at w) by (rewrite Hw'; apply time_at_iter_advance).
  assert (Hps : psutil_at w' = psutil_at w)
    by (rewrite Hw'; apply psutil_at_iter_advance).
  split; [|split; [|apply read_only_health_check]].
  - intros h Hh. unfold outcome_of, health_check.
    unfold bind at 1. rewrite Hrun. run_method.
    rewrite Hps, Htick, Hh, Htime.
    destruct (loadavg h) as [[l1 l5] l15].
    eexists. split; [reflexivity|]. rewrite <- Hlen. repeat split.
  - intros e He. unfold outcome_of, health_check.
    unfold bind at 1. rewrite Hrun. run_method.
    rewrite Hps, Htick, He. reflexivity.
Qed.

Lemma health_check_counts_sessions_witness :
  (exists p,
     outcome_of health_check (demo_world echo_hi) two_sessions = Return p
     /\ dict_get (py "active_sessions") p = Some (VInt 2))
  /\ outcome_of health_check no_psutil_world two_sessions
     = Raise (OtherException (py "getloadavg() is not supported")).
Proof.
  assert (Hwf : dict_wf (sessions two_sessions)).
  { repeat constructor; simpl; intuition discriminate. }
  split.
  - destruct (proj1 (health_check_counts_sessions (demo_world echo_hi)
                       two_sessions Hwf) demo_host eq_refl)
      as (p & Hout & _ & _ & Hn).
    exists p. split; [exact Hout | exact Hn].
  - exact (proj1 (proj2 (health_check_counts_sessions no_psutil_world
                           two_sessions Hwf)) _ eq_refl).
Defined.

(* ================================================================= *)
(** ** More on command execution *)

(** X5.  Whatever its outcome, [execute_command sid] neither adds nor removes
    a session and touches no session other than [sid]; of [sid] it keeps the
    id, the status, the description and the creation time, and it raises
    [commands_executed] by at most one. *)
Theorem execute_command_frame sid command w m :
  let m' := mgr_after (execute_command sid command) w m in
  dict_keys (sessions m') = dict_keys (sessions m)
  /\ (forall k, k <> sid -> dict_get k (sessions m') = dict_get k (sessions m))
  /\ (forall s,
        dict_get sid (sessions m) = Some s ->
        exists s',
          dict_get sid (sessions m') = Some s'
          /\ session_id s' = session_id s
          /\ status s' = status s
          /\ description s' = description s
          /\ created_at (stats s') = created_at (stats s)
          /\ commands_executed (stats s) <= commands_executed (stats s')
             <= commands_executed (stats s) + 1).
Proof.
  intros m'. subst m'. unfold mgr_after.
  destruct (dict_get sid (sessions m)) as [s|] eqn:Hs.
  - destruct (run_at w (tick w) command) as [rc out err|e] eqn:Hrun.
    + rewrite (execute_command_completes _ _ _ _ _ _ _ _ Hs Hrun). simpl.
      split; [apply dict_keys_update|].
      split; [intros k Hk; apply dict_get_update_neq; exact Hk|].
      intros s0 [= <-]. rewrite dict_get_update_eq, Hs. simpl.
      eexists. split; [reflexivity|]. simpl. repeat split; lia.
    + rewrite (execute_command_raises _ _ _ _ _ _ Hs Hrun). simpl.
      split; [reflexivity|]. split; [reflexivity|].
      intros s0 [= <-]. exists s. rewrite Hs. repeat split; lia.
  - rewrite execute_command_missing by (apply dict_contains_false; exact Hs).
    simpl. split; [reflexivity|]. split; [reflexivity|]. intros s0 H. discriminate H.
Qed.

(** X6.  The buffer holds the latest output only: after two commands that
    both complete, it is the formatted output of the second, the byte counter
    is its length, and [commands_executed] has grown by two. *)
Theorem execute_command_overwrites sid c1 c2 s rc1 out1 err1 rc2 out2 err2 w m :
  dict_get sid (sessions m) = Some s ->
  run_at w (tick w) c1 = Completed rc1 out1 err1 ->
  run_at w (3 + tick w)%nat c2 = Completed rc2 out2 err2 ->
  let m1 := mgr_after (execute_command sid c1) w m in
  let w1 := world_after (execute_command sid c1) w m in
  exists s2,
    dict_get sid (sessions (mgr_after (execute_command sid c2) w1 m1)) = Some s2
    /\ buffer s2 = format_output c2 rc2 (ctime_at w (5 + tick w)%nat) out2 err2
    /\ bytes_written (stats s2) = len (buffer s2)
    /\ commands_executed (stats s2) = commands_executed (stats s) + 2.
Proof.
  intros Hs Hrun1 Hrun2 m1 w1. subst m1 w1. unfold mgr_after, world_after.
  rewrite (execute_command_completes _ _ _ _ _ _ _ _ Hs Hrun1). simpl.
  erewrite execute_command_completes; cycle 1.
  - simpl. rewrite dict_get_update_eq, Hs. reflexivity.
  - simpl. exact Hrun2.
  - simpl. rewrite dict_get_update_eq, dict_get_update_eq, Hs. simpl.
    eexists. split; [reflexivity|]. simpl. repeat split. lia.
Qed.

Lemma execute_command_overwrites_witness :
  exists s2,
    dict_get (py "10000000")
      (sessions
         (mgr_after (execute_command (py "10000000") (py "pwd"))
            (world_after (execute_command (py "10000000") (py "echo hi"))
               (demo_world echo_hi) one_session)
            (mgr_after (execute_command (py "10000000") (py "echo hi"))
               (demo_world echo_hi) one_session))) = Some s2
    /\ commands_executed (stats s2) = 2.
Proof.
  destruct (execute_command_overwrites (py "10000000") (py "echo hi") (py "pwd")
              (fresh_session (py "10000000") (inject_Z 1700000001)
                 (py "Session-10000000"))
              0 (py "hi" ++ [newline]) [] 0 (py "hi" ++ [newline]) []
              (demo_world echo_hi) one_session)
    as (s2 & Hget & _ & _ & Hn).
  - vm_compute. reflexivity.
  - reflexivity.
  - reflexivity.
  - exists s2. split; [exact Hget | exact Hn].
Defined.

Lemma str_count_app c a b : str_count c (a ++ b) = str_count c a + str_count c b.
Proof. unfold str_count. rewrite count_occ_app. apply Nat2Z.inj_add. Qed.

Lemma str_count_nonneg c a : 0 <= str_count c a.
Proof. unfold str_count. lia. Qed.

(** X7.  The formatted output is the three header lines followed by the
    STDOUT block and then the STDERR block, a block being left out when its
    stream is empty; it therefore has at least three lines. *)
Theorem format_output_blocks command rc ts out err :
  format_output command rc ts out err
  = py "Command: " ++ command ++ [newline]
    ++ py "Return code: " ++ str_of_int rc ++ [newline]
    ++ py "Timestamp: " ++ ts
    ++ output_block (py "STDOUT:") out ++ output_block (py "STDERR:") err
  /\ 3 <= str_count newline (format_output command rc ts out err) + 1.
Proof.
  assert (E : format_output command rc ts out err
              = py "Command: " ++ command ++ [newline]
                ++ py "Return code: " ++ str_of_int rc ++ [newline]
                ++ py "Timestamp: " ++ ts
                ++ output_block (py "STDOUT:") out
                ++ output_block (py "STDERR:") err).
  { unfold format_output, output_block.
    destruct out as [|o out], err as [|e err]; simpl;
      repeat (rewrite <- ?app_assoc; simpl); rewrite ?app_nil_r; reflexivity. }
  split; [exact E|]. rewrite E.
  rewrite !str_count_app.
  assert (H1 : str_count newline [newline] = 1) by reflexivity.
  rewrite H1.
  pose proof (str_count_nonneg newline (py "Command: ")).
  pose proof (str_count_nonneg newline command).
  pose proof (str_count_nonneg newline (py "Return code: ")).
  pose proof (str_count_nonneg newline (str_of_int rc)).
  pose proof (str_count_nonneg newline (py "Timestamp: ")).
  pose proof (str_count_nonneg newline ts).
  pose proof (str_count_nonneg newline (output_block (py "STDOUT:") out)).
  pose proof (str_count_nonneg newline (output_block (py "STDERR:") err)).
  lia.
Qed.

(** X8.  After a command that completes, the record carries the clock
    reading taken during the execution as [last_activity], and
    [get_session_stats] reports the counters of that execution: one more
    command, and the length and line count of the output the call
    returned. *)
Theorem stats_after_execution sid command s rc out err w m w2 :
  dict_get sid (sessions m) = Some s ->
  run_at w (tick w) command = Completed rc out err ->
  let m' := mgr_after (execute_command sid command) w m in
  exists r output p s',
    outcome_of (execute_command sid command) w m = Return r
    /\ dict_get (py "output") r = Some (VStr output)
    /\ dict_get sid (sessions m') = Some s'
    /\ last_activity (stats s') = time_at w (S (tick w))
    /\ outcome_of (get_session_stats sid) w2 m' = Return p
    /\ stats_field (py "commands_executed") p = VInt (commands_executed (stats s) + 1)
    /\ stats_field (py "bytes_written") p = VInt (len output)
    /\ stats_field (py "lines_written") p = VInt (len (split_on newline output)).
Proof.
  intros Hs Hrun m'. subst m'. unfold mgr_after, outcome_of.
  rewrite (execute_command_completes _ _ _ _ _ _ _ _ Hs Hrun). simpl.
  erewrite get_session_stats_present
    by (simpl; rewrite dict_get_update_eq, Hs; reflexivity).
  rewrite dict_get_update_eq, Hs. simpl.
  eexists. eexists. eexists. eexists. split; [reflexivity|].
  split; [reflexivity|]. split; [reflexivity|]. split; [reflexivity|].
  split; [reflexivity|].
  repeat split. simpl. unfold stats_field. simpl.
  change (payload_get (py "lines_written") ?d) with
    (VInt (str_count newline
             (format_output command rc (ctime_at w (S (S (tick w)))) out err) + 1)).
  rewrite str_count_split. reflexivity.
Qed.

Lemma stats_after_execution_witness :
  exists p,
    outcome_of (get_session_stats (py "10000000"))
      (advance (advance (advance (demo_world echo_hi)))) used_session = Return p
    /\ stats_field (py "commands_executed") p = VInt 1.
Proof.
  destruct (stats_after_execution (py "10000000") (py "echo hi")
              (fresh_session (py "10000000") (inject_Z 1700000001)
                 (py "Session-10000000"))
              0 (py "hi" ++ [newline]) [] (demo_world echo_hi) one_session
              (advance (advance (advance (demo_world echo_hi)))))
    as (r & output & p & s' & _ & _ & _ & _ & Hout & Hn & _).
  - vm_compute. reflexivity.
  - reflexivity.
  - exists p. split; [exact Hout | exact Hn].
Defined.

(* ================================================================= *)
(** ** More on session creation *)

(** X9.  When the identifier drawn is not in use, [create_session] appends
    one fresh record (no command run, empty buffer) after the stored ones and
    leaves those as they were; the payload reports success and the new id. *)
Theorem create_session_new_id descr w m :
  dict_contains (next_id w) (sessions m) = false ->
  let sid := next_id w in
  let m' := mgr_after (create_session descr) w m in
  sessions m'
  = sessions m
    ++ [(sid, fresh_session sid (time_at w (S (tick w)))
                (str_or descr (py "Session-" ++ sid)))]
  /\ len (sessions m') = len (sessions m) + 1
  /\ (forall k, k <> sid -> dict_get k (sessions m') = dict_get k (sessions m))
  /\ exists p, outcome_of (create_session descr) w m = Return p
               /\ dict_get (py "success") p = Some (VBool true)
               /\ dict_get (py "session_id") p = Some (VStr sid).
Proof.
  intros Habs sid m'. subst sid m'. unfold mgr_after, outcome_of.
  rewrite create_session_run. simpl.
  apply dict_contains_false in Habs. rewrite dict_set_absent by exact Habs.
  split; [reflexivity|].
  split; [unfold len; rewrite length_app; simpl; lia|].
  split.
  - intros k Hk. rewrite <- (dict_set_absent _ _ _ Habs).
    apply dict_get_set_neq. exact Hk.
  - eexists. split; [reflexivity|]. split; reflexivity.
Qed.

Lemma create_session_new_id_witness :
  len (sessions (mgr_after (create_session (py "build"))
                   (advance (advance (demo_world echo_hi))) one_session))
  = len (sessions one_session) + 1.
Proof.
  refine (proj1 (proj2 (create_session_new_id (py "build")
                          (advance (advance (demo_world echo_hi))) one_session _))).
  vm_compute. reflexivity.
Defined.

(** X10.  When the identifier drawn is already in use, [create_session]
    replaces the record stored under it by a fresh one, so that session's
    buffer and counters are lost; the number and order of the sessions do not
    change, the others are untouched, and the payload still reports
    success. *)
Theorem create_session_id_collision descr old w m :
  dict_get (next_id w) (sessions m) = Some old ->
  let sid := next_id w in
  let m' := mgr_after (create_session descr) w m in
  dict_get sid (sessions m')
  = Some (fresh_session sid (time_at w (S (tick w)))
            (str_or descr (py "Session-" ++ sid)))
  /\ dict_keys (sessions m') = dict_keys (sessions m)
  /\ (forall k, k <> sid -> dict_get k (sessions m') = dict_get k (sessions m))
  /\ exists p, outcome_of (create_session descr) w m = Return p
               /\ dict_get (py "success") p = Some (VBool true)
               /\ dict_get (py "session_id") p = Some (VStr sid).
Proof.
  intros Hold sid m'. subst sid m'. unfold mgr_after, outcome_of.
  rewrite create_session_run. simpl.
  split; [apply dict_get_set_eq|].
  split.
  - rewrite dict_keys_set. unfold dict_contains. rewrite Hold. reflexivity.
  - split; [intros k Hk; apply dict_get_set_neq; exact Hk|].
    eexists. split; [reflexivity|]. split; reflexivity.
Qed.

Lemma create_session_id_collision_witness :
  exists s,
    dict_get (py "10000000")
      (sessions (mgr_after (create_session []) colliding_world used_session)) = Some s
    /\ commands_executed (stats s) = 0
    /\ buffer s = [].
Proof.
  destruct (create_session_id_collision []
              (executed (fresh_session (py "10000000") (inject_Z 1700000001)
                           (py "Session-10000000"))
                 (inject_Z 1700000001)
                 (format_output (py "echo hi") 0 (py "Tue Nov 14 22:13:20 2023")
                    (py "hi" ++ [newline]) []))
              colliding_world used_session) as (Hget & _).
  - vm_compute. reflexivity.
  - eexists. split; [exact Hget|]. split; reflexivity.
Defined.

(** X11.  A description that is not empty is stored as given and returned as
    given. *)
Theorem create_session_keeps_description descr w m :
  descr <> [] ->
  (exists s, dict_get (next_id w) (sessions (mgr_after (create_session descr) w m))
             = Some s
             /\ description s = descr)
  /\ (exists p, outcome_of (create_session descr) w m = Return p
                /\ dict_get (py "description") p = Some (VStr descr)).
Proof.
  intros Hne. unfold mgr_after, outcome_of. rewrite create_session_run. simpl.
  split.
  - eexists. split; [apply dict_get_set_eq|]. simpl.
    destruct descr; [congruence | reflexivity].
  - eexists. split; reflexivity.
Qed.

Lemma create_session_keeps_description_witness :
  exists s,
    dict_get (py "10000002") (sessions two_sessions) = Some s
    /\ description s = py "build".
Proof.
  refine (proj1 (create_session_keeps_description (py "build")
                   (advance (advance (demo_world echo_hi))) one_session _)).
  discriminate.
Defined.

(* ================================================================= *)
(** ** More on batch termination *)

(** X12.  [batch_terminate] with an id list removes exactly the listed ids:
    none of them is in the store afterwards, and every other session is as it
    was. *)
Theorem batch_terminate_removes_listed ids w m k :
  dict_get k (sessions (mgr_after (batch_terminate (Some ids)) w m))
  = if in_dec str_eq_dec k ids then None else dict_get k (sessions m).
Proof.
  unfold mgr_after. rewrite batch_terminate_run. simpl.
  destruct (in_dec str_eq_dec k ids) as [Hin|Hnin].
  - apply dict_get_del_all_in. exact Hin.
  - apply dict_get_del_all_notin. exact Hnin.
Qed.

(** X13.  The entry the details keep for an id depends on how often the list
    names it: named once, it is the outcome of terminating it on the store
    the batch started from; named more than once, it is "not found", the
    outcome of the last call, even when the first call terminated the
    session. *)
Theorem batch_terminate_details_by_multiplicity ids w m :
  exists details,
    outcome_of (batch_terminate (Some ids)) w m
    = Return [ (py "success", VBool true);
               (py "terminated_count", VInt (count_success details));
               (py "details", details_value details) ]
    /\ forall sid,
         dict_get sid details
         = match count_occ str_eq_dec ids sid with
           | O => None
           | S O => Some (terminate_result sid (sessions m))
           | S (S _) => Some (failure (not_found sid))
           end.
Proof.
  exists (loop_results ids [] (sessions m)).
  unfold outcome_of. rewrite batch_terminate_run. simpl.
  split; [reflexivity|]. intros sid. apply loop_results_by_multiplicity.
Qed.

Lemma del_all_absent ids : forall d,
  (forall sid, In sid ids -> dict_contains sid d = false) -> del_all ids d = d.
Proof.
  induction ids as [|x ids IH]; intros d H; simpl; [reflexivity|].
  rewrite dict_del_absent
    by (apply dict_contains_false, H; left; reflexivity).
  apply IH. intros sid Hin. apply H. right. exact Hin.
Qed.

Lemma count_success_none (details : dict Payload) :
  (forall k r, In (k, r) details -> truthy (payload_get (py "success") r) = false) ->
  count_success details = 0.
Proof.
  unfold count_success, dict_values, len.
  induction details as [|[k r] details IH]; intros H; simpl; [reflexivity|].
  rewrite (H k r) by (left; reflexivity).
  apply IH. intros k' r' Hin. apply (H k' r'). right. exact Hin.
Qed.

(** X14.  When none of the listed ids is in the store (in particular for an
    empty list), [batch_terminate] changes nothing, counts zero, and records
    "not found" for every listed id; the call itself still reports
    success. *)
Theorem batch_terminate_unknown_ids ids w m :
  (forall sid, In sid ids -> dict_contains sid (sessions m) = false) ->
  exists details,
    batch_terminate (Some ids) w m
    = (Return [ (py "success", VBool true);
                (py "terminated_count", VInt 0);
                (py "details", details_value details) ],
       w, m)
    /\ (forall sid, In sid ids ->
          dict_get sid details = Some (failure (not_found sid)))
    /\ (forall sid, ~ In sid ids -> dict_get sid details = None).
Proof.
  intros Habs. exists (loop_results ids [] (sessions m)).
  assert (Hentry : forall sid r,
            dict_get sid (loop_results ids [] (sessions m)) = Some r ->
            r = failure (not_found sid)).
  { intros sid r H. apply loop_results_get in H.
    destruct H as [[Hin [[_ Hc] | ->]] | [_ H]].
    - rewrite (Habs sid Hin) in Hc. discriminate Hc.
    - reflexivity.
    - discriminate H. }
  split; [|split].
  - rewrite batch_terminate_run. simpl.
    rewrite del_all_absent by exact Habs. rewrite manager_eta.
    rewrite count_success_none; [reflexivity|].
    intros k r Hin. apply dict_in_get in Hin; [|apply loop_results_wf; constructor].
    rewrite (Hentry k r Hin). reflexivity.
  - intros sid Hin.
    assert (Hc : dict_contains sid (loop_results ids [] (sessions m)) = true)
      by (apply loop_results_keys; left; exact Hin).
    apply dict_contains_true in Hc. destruct Hc as [r Hr].
    rewrite Hr. f_equal. apply (Hentry sid r Hr).
  - intros sid Hnin. apply dict_contains_false.
    destruct (dict_contains sid (loop_results ids [] (sessions m))) eqn:E;
      [|reflexivity].
    apply loop_results_keys in E. destruct E as [Hin|E]; [contradiction|].
    discriminate E.
Qed.

Lemma batch_terminate_unknown_ids_witness :
  mgr_after (batch_terminate (Some [py "zzz"; py "yyy"; py "zzz"]))
    (demo_world echo_hi) two_sessions
  = two_sessions.
Proof.
  destruct (batch_terminate_unknown_ids [py "zzz"; py "yyy"; py "zzz"]
              (demo_world echo_hi) two_sessions) as (details & Hrun & _).
  - intros sid [<-|[<-|[<-|[]]]]; vm_compute; reflexivity.
  - unfold mgr_after. rewrite Hrun. reflexivity.
Defined.

(* ================================================================= *)
(** ** Consistency of stored records *)

(** X15.  In every state the manager can reach, each record is stored under
    its own id, its byte counter is the length of its buffer, and its
    counters tell whether a command has run: none has run exactly when the
    buffer is empty with zero lines and no activity stamp, and otherwise the
    line counter is the number of newlines of the buffer plus one. *)
Theorem reachable_records_consistent m :
  reachable m ->
  forall k s, dict_get k (sessions m) = Some s -> consistent k s.
Proof.
  induction 1 as [|m op w _ IH]; [intros k s H; discriminate H|].
  intros k s.
  destruct (run_op_store op w m)
    as [E|[(sid & t & descr & E)|[(sid & now & output & E)|(ids & E)]]];
    rewrite E; clear E.
  - apply IH.
  - destruct (str_eq_dec k sid) as [->|Hne].
    + rewrite dict_get_set_eq. intros [= <-]. unfold consistent. simpl.
      repeat split; try reflexivity; lia.
    + rewrite dict_get_set_neq by exact Hne. apply IH.
  - destruct (str_eq_dec k sid) as [->|Hne].
    + rewrite dict_get_update_eq.
      destruct (dict_get sid (sessions m)) as [s0|] eqn:Hs; [|discriminate].
      simpl. intros [= <-].
      destruct (IH sid s0 Hs) as (Hid & _ & Hpos & _).
      unfold consistent. simpl. repeat split; try assumption; try lia.
    + rewrite dict_get_update_neq by exact Hne. apply IH.
  - intros H. apply dict_get_del_all_some in H. apply (IH k s H).
Qed.

Lemma reachable_records_consistent_witness :
  exists s,
    dict_get (py "10000000") (sessions used_session) = Some s
    /\ consistent (py "10000000") s.
Proof.
  assert (Hreach : reachable used_session).
  { exact (reach_step _ (OpExecuteCommand (py "10000000") (py "echo hi"))
             (demo_world echo_hi)
             (reach_step _ (OpCreateSession []) (demo_world echo_hi) reach_init)). }
  eexists. split; [vm_compute; reflexivity|].
  apply (reachable_records_consistent used_session Hreach).
  vm_compute. reflexivity.
Defined.



